(** * update_data.py: a shallow embedding and its checked properties

    The script loads the S&P 500 constituents, asks Finnhub for a quote and
    the last earnings surprise of every symbol, keeps the symbols whose EPS
    and revenue both beat the estimates, and renders them into one HTML page.

    Layout of this development:
    - [Py]: the part of the Python runtime the script relies on (exceptions,
      values decoded from JSON, [float()], [str.format], the [.2f] format);
    - [UpdateData]: the functions of [update_data.py], one definition per
      source function, with the outside world (environment, network, clock,
      file system) made explicit;
    - the properties proved about them.

    A Python [str] is modelled by the bytes of its UTF-8 encoding.  All the
    characters the script inspects are ASCII, and the byte-wise order of
    UTF-8 strings is the code point order Python compares strings with. *)

From Stdlib Require Import ZArith List String Ascii Bool Lia.
From Stdlib Require Import Floats.SpecFloat.
From Stdlib Require Import Sorting.Sorted Sorting.Permutation.
From Stdlib Require Import DecimalString.
From stdpp Require Import base option gmap strings.

Local Open Scope string_scope.

(* ===================================================================== *)
(** * The Python runtime                                                   *)
(* ===================================================================== *)

Module Py.

(** Exceptions the script can meet.  [Unmodelled] marks behaviour of the
    runtime that lies outside the fragment described here. *)
Inductive exn :=
| KeyError (key : string)
| IndexError
| ValueError (msg : string)
| TypeError
| AttributeError
| OverflowError
| RuntimeError (msg : string)
| HTTPError (status : Z)
| OtherError (cls : string)
| Unmodelled (what : string).

Inductive result (A : Type) :=
| Ok (a : A)
| Raise (e : exn).
Arguments Ok {A} a.
Arguments Raise {A} e.

Definition is_ok {A} (r : result A) : bool :=
  match r with Ok _ => true | Raise _ => false end.

(** ** Floats: IEEE 754 binary64 *)

Abbreviation float := spec_float.

Definition prec : Z := 53.
Definition emax : Z := 1024.

(** [a > b] and [a <= b] on floats; both are false when a NaN is involved. *)
Definition float_gt (a b : float) : bool :=
  match SFcompare a b with
  | Some Gt => true
  | _ => false
  end.

Definition float_le (a b : float) : bool := SFleb a b.

(** [float(n)] for an [int]: round to nearest even, [OverflowError] when the
    result does not fit. *)
Definition float_of_int (n : Z) : result float :=
  match binary_normalize prec emax n 0 false with
  | S754_infinity _ => Raise OverflowError
  | f => Ok f
  end.

(** ** Values decoded from JSON *)

#[local] Unset Elimination Schemes.
Inductive pyval :=
| PNone
| PBool (b : bool)
| PInt (n : Z)
| PFloat (f : float)
| PStr (s : string)
| PList (l : list pyval)
| PDict (d : gmap string pyval).
#[local] Set Elimination Schemes.

(** Truth value, as tested by [if not records]. *)
Definition truthy (v : pyval) : bool :=
  match v with
  | PNone => false
  | PBool b => b
  | PInt n => negb (n =? 0)%Z
  | PFloat (S754_zero _) => false
  | PFloat _ => true
  | PStr EmptyString => false
  | PStr _ => true
  | PList [] => false
  | PList _ => true
  | PDict d => match map_to_list d with [] => false | _ => true end
  end.

(** The first character of a string: its first byte and the UTF-8
    continuation bytes (10xxxxxx) that follow it. *)
Fixpoint utf8_continuation (s : string) : string :=
  match s with
  | String (Ascii b0 b1 b2 b3 b4 b5 false true as c) s' =>
      String c (utf8_continuation s')
  | _ => EmptyString
  end.

(** [v[0]] *)
Definition index0 (v : pyval) : result pyval :=
  match v with
  | PList (x :: _) => Ok x
  | PList [] => Raise IndexError
  | PStr (String c s) => Ok (PStr (String c (utf8_continuation s)))
  | PStr EmptyString => Raise IndexError
  | PDict _ => Raise (KeyError "0")
  | _ => Raise TypeError
  end.

(** [v.get(key)] and [v.get(key, dflt)]: only a dict has the method. *)
Definition get (v : pyval) (key : string) (dflt : pyval) : result pyval :=
  match v with
  | PDict d => Ok (default dflt (d !! key))
  | _ => Raise AttributeError
  end.

(** [float(v)].  Parsing a [str] is left to [float_of_str], the runtime's
    parser of float literals, which is not described here. *)
Definition to_float (float_of_str : string -> option float) (v : pyval)
  : result float :=
  match v with
  | PFloat f => Ok f
  | PInt n => float_of_int n
  | PBool b => float_of_int (if b then 1 else 0)
  | PStr s =>
      match float_of_str s with
      | Some f => Ok f
      | None => Raise (ValueError "could not convert string to float")
      end
  | PNone | PList _ | PDict _ => Raise TypeError
  end.

(** ** Decimal output *)

Definition str_of_nat (n : N) : string := NilZero.string_of_uint (N.to_uint n).

(** [str(n)] for an [int]. *)
Definition str_of_int (n : Z) : string :=
  match n with
  | Z0 => "0"
  | Zpos p => str_of_nat (Npos p)
  | Zneg p => "-" +:+ str_of_nat (Npos p)
  end.

(** [n / d] rounded to the nearest integer, ties to even ([0 <= n], [0 < d]). *)
Definition div_half_even (n d : Z) : Z :=
  let q := (n / d)%Z in
  match (2 * (n mod d) ?= d)%Z with
  | Lt => q
  | Gt => (q + 1)%Z
  | Eq => if Z.even q then q else (q + 1)%Z
  end.

(** The absolute value of a finite float [m * 2^e] in hundredths, correctly
    rounded. *)
Definition hundredths (m : positive) (e : Z) : Z :=
  match e with
  | Zneg k => div_half_even (Zpos m * 100) (2 ^ Zpos k)
  | _ => (Zpos m * 2 ^ e * 100)%Z
  end.

Definition two_digits (n : Z) : string :=
  (if (n <? 10)%Z then "0" else EmptyString) +:+ str_of_nat (Z.to_N n).

Definition fixed2 (h : Z) : string :=
  str_of_nat (Z.to_N (h / 100)) +:+ "." +:+ two_digits (h mod 100).

(** [format(x, ".2f")] for a float. *)
Definition format_2f (x : float) : string :=
  match x with
  | S754_nan => "nan"
  | S754_infinity s => if s then "-inf" else "inf"
  | S754_zero s => (if s then "-" else EmptyString) +:+ "0.00"
  | S754_finite s m e =>
      (if s then "-" else EmptyString) +:+ fixed2 (hundredths m e)
  end.

(** [sep.join(parts)] *)
Definition join (sep : string) (parts : list string) : string :=
  String.concat sep parts.

(** ** [str.format] with keyword arguments only

    The scanner below follows CPython's [MarkupIterator_next] and
    [parse_field]: literal text is copied, [{{] and [}}] stand for one
    brace, and a single [{] opens a replacement field
    [{name!conversion:spec}] whose spec may nest braces. *)

Inductive fstate :=
| SLit
| SOpen
| SClose
| SName (name : string)
| SBracket (name : string)
| SConv (name : string)
| SConvEnd (name : string) (conv : ascii)
| SSpec (name : string) (conv : option ascii) (spec : string) (depth : nat).

Inductive step :=
| Goto (st : fstate)
| Emit (text : string) (st : fstate)
| Field (name : string) (conv : option ascii) (spec : string)
| Fail (e : exn).

Definition snoc (s : string) (c : ascii) : string := s +:+ String c EmptyString.

Definition name_char (name : string) (c : ascii) : step :=
  match c with
  | "{"%char => Fail (ValueError "unexpected '{' in field name")
  | "["%char => Goto (SBracket (snoc name c))
  | "}"%char => Field name None EmptyString
  | ":"%char => Goto (SSpec name None EmptyString 1)
  | "!"%char => Goto (SConv name)
  | _ => Goto (SName (snoc name c))
  end.

Definition transition (st : fstate) (c : ascii) : step :=
  match st with
  | SLit =>
      match c with
      | "{"%char => Goto SOpen
      | "}"%char => Goto SClose
      | _ => Emit (String c EmptyString) SLit
      end
  | SOpen =>
      match c with
      | "{"%char => Emit "{" SLit
      | _ => name_char EmptyString c
      end
  | SClose =>
      match c with
      | "}"%char => Emit "}" SLit
      | _ => Fail (ValueError "Single '}' encountered in format string")
      end
  | SName name => name_char name c
  | SBracket name =>
      match c with
      | "]"%char => Goto (SName (snoc name c))
      | _ => Goto (SBracket (snoc name c))
      end
  | SConv name => Goto (SConvEnd name c)
  | SConvEnd name conv =>
      match c with
      | "}"%char => Field name (Some conv) EmptyString
      | ":"%char => Goto (SSpec name (Some conv) EmptyString 1)
      | _ => Fail (ValueError "expected ':' after conversion specifier")
      end
  | SSpec name conv spec depth =>
      match c with
      | "{"%char => Goto (SSpec name conv (snoc spec c) (S depth))
      | "}"%char =>
          match depth with
          | 0%nat | 1%nat => Field name conv spec
          | S d => Goto (SSpec name conv (snoc spec c) d)
          end
      | _ => Goto (SSpec name conv (snoc spec c) depth)
      end
  end.

(** The format string ends in state [st]. *)
Definition at_end (st : fstate) : result string :=
  match st with
  | SLit => Ok EmptyString
  | SOpen => Raise (ValueError "Single '{' encountered in format string")
  | SClose => Raise (ValueError "Single '}' encountered in format string")
  | SName _ | SBracket _ =>
      Raise (ValueError "expected '}' before end of string")
  | SConv _ =>
      Raise (ValueError "end of string while looking for conversion specifier")
  | SConvEnd _ _ | SSpec _ _ _ _ =>
      Raise (ValueError "unmatched '{' in format spec")
  end.

(** The part of a field name before the first [.] or [[]. *)
Fixpoint first_part (name : string) : string :=
  match name with
  | EmptyString => EmptyString
  | String c s =>
      match c with
      | "."%char | "["%char => EmptyString
      | _ => String c (first_part s)
      end
  end.

Definition is_digit (c : ascii) : bool :=
  (48 <=? nat_of_ascii c)%nat && (nat_of_ascii c <=? 57)%nat.

Definition is_ascii (c : ascii) : bool := (nat_of_ascii c <? 128)%nat.

Fixpoint all_chars (p : ascii -> bool) (s : string) : bool :=
  match s with
  | EmptyString => true
  | String c s' => p c && all_chars p s'
  end.

(** [str(v)], for the values whose text needs no float printing. *)
Definition str_of (v : pyval) : result string :=
  match v with
  | PNone => Ok "None"
  | PBool b => Ok (if b then "True" else "False")
  | PInt n => Ok (str_of_int n)
  | PStr s => Ok s
  | PFloat _ | PList _ | PDict _ => Raise (Unmodelled "str of a float or container")
  end.

(** One replacement field.  The object is looked up first: a name that is
    empty or a number indexes the (empty) positional arguments, any other
    name is a key of the keyword arguments.  Attribute and index access,
    conversions and non-empty format specs apply to the object found and are
    outside the fragment. *)
Definition render_field (kwargs : gmap string pyval)
    (name : string) (conv : option ascii) (spec : string) : result string :=
  let first := first_part name in
  if negb (all_chars is_ascii first) then
    Raise (Unmodelled "non-ASCII field name")
  else if all_chars is_digit first then
    if (String.length first <=? 9)%nat then Raise IndexError
    else Raise (Unmodelled "long positional index")
  else
    match kwargs !! first with
    | None => Raise (KeyError first)
    | Some v =>
        if negb (String.eqb first name) then
          Raise (Unmodelled "attribute or index access in a field name")
        else
          match conv, spec with
          | None, EmptyString => str_of v
          | _, _ => Raise (Unmodelled "conversion or format spec")
          end
    end.

Definition prepend (text : string) (r : result string) : result string :=
  match r with
  | Ok out => Ok (text +:+ out)
  | Raise e => Raise e
  end.

Fixpoint scan (kwargs : gmap string pyval) (st : fstate) (s : string)
  : result string :=
  match s with
  | EmptyString => at_end st
  | String c s' =>
      match transition st c with
      | Goto st' => scan kwargs st' s'
      | Emit text st' => prepend text (scan kwargs st' s')
      | Field name conv spec =>
          match render_field kwargs name conv spec with
          | Ok text => prepend text (scan kwargs SLit s')
          | Raise e => Raise e
          end
      | Fail e => Raise e
      end
  end.

(** [template.format] applied to keyword arguments *)
Definition format (template : string) (kwargs : gmap string pyval)
  : result string :=
  scan kwargs SLit template.

End Py.

(* ===================================================================== *)
(** * The script                                                           *)
(* ===================================================================== *)

Module UpdateData.
Import Py.

(** ** The outside world *)

(** What [datetime.now()] returns. *)
Record datetime := {
  dt_year : Z;
  dt_month : Z;
  dt_day : Z;
  dt_hour : Z;
  dt_minute : Z;
  dt_second : Z;
  dt_microsecond : Z
}.

(** A [requests] response: its status and the value its body decodes to,
    [None] when the body is not JSON. *)
Record response := {
  status_code : Z;
  json_body : option pyval
}.

(** A table read by [pandas.read_html]: its columns, each a label and the
    cells below it.  The cells of the two columns the script keeps are
    strings. *)
Definition DataFrame : Type := list (string * list string).

(** What a run does to the world, in order. *)
Inductive event :=
| EvReadHtml (url : string)
| EvHttpGet (url : string) (params : list (string * string))
| EvWriteFile (path content : string)
| EvPrint (line : string).

Definition trace : Type := list event.

Definition is_request (ev : event) : bool :=
  match ev with
  | EvReadHtml _ | EvHttpGet _ _ => true
  | EvWriteFile _ _ | EvPrint _ => false
  end.

Definition is_write (ev : event) : bool :=
  match ev with
  | EvWriteFile _ _ => true
  | _ => false
  end.

(** The world a run meets.  The network and the file system may answer
    differently each time: they see the events so far. *)
Record world := {
  getenv : string -> option string;
  script_dir : string;
  now : datetime;
  read_html : trace -> string -> result (list DataFrame);
  http_get : trace -> string -> list (string * string) -> result response;
  fs_write : trace -> string -> string -> option exn
}.

(** ** Computations: a trace and a possible exception *)

Definition M (A : Type) : Type := trace -> result A * trace.

#[global] Instance M_ret : MRet M := fun A a tr => (Ok a, tr).

#[global] Instance M_bind : MBind M := fun A B f m tr =>
  match m tr with
  | (Ok a, tr') => f a tr'
  | (Raise e, tr') => (Raise e, tr')
  end.

Definition lift {A} (r : result A) : M A := fun tr => (r, tr).

Definition raise {A} (e : exn) : M A := lift (Raise e).

(** [try: body except Exception: handler] *)
Definition try_except {A} (body handler : M A) : M A := fun tr =>
  match body tr with
  | (Ok a, tr') => (Ok a, tr')
  | (Raise _, tr') => handler tr'
  end.

Definition pd_read_html (w : world) (url : string) : M (list DataFrame) :=
  fun tr => (read_html w tr url, (tr ++ [EvReadHtml url])%list).

Definition session_get (w : world) (url : string)
    (params : list (string * string)) : M response :=
  fun tr => (http_get w tr url params, (tr ++ [EvHttpGet url params])%list).

(** [resp.raise_for_status()]: client and server error statuses raise. *)
Definition raise_for_status (resp : response) : result unit :=
  if (400 <=? status_code resp)%Z && (status_code resp <? 600)%Z
  then Raise (HTTPError (status_code resp))
  else Ok tt.

(** [resp.json()] *)
Definition json (resp : response) : result pyval :=
  match json_body resp with
  | Some v => Ok v
  | None => Raise (ValueError "response body is not JSON")
  end.

(** [with open(path, "w", encoding="utf-8") as f: f.write(content)] *)
Definition write_file (w : world) (path content : string) : M unit :=
  fun tr =>
    match fs_write w tr path content with
    | Some e => (Raise e, tr)
    | None => (Ok tt, (tr ++ [EvWriteFile path content])%list)
    end.

Definition print (line : string) : M unit :=
  fun tr => (Ok tt, (tr ++ [EvPrint line])%list).

(** [os.path.join(a, b)] for a relative [b]. *)
Definition ends_with_slash (a : string) : bool :=
  match String.get (String.length a - 1) a with
  | Some "/"%char => true
  | _ => false
  end.

Definition path_join (a b : string) : string :=
  match a with
  | EmptyString => b
  | _ => if ends_with_slash a then a +:+ b else a +:+ "/" +:+ b
  end.

(** ** Data of the script

    The script keeps its records in dicts with a fixed set of keys, built by
    dict displays and read by constant keys: they are records here.  The
    [requests.Session] passed to the two fetch functions carries nothing the
    script observes and is left out. *)

Record Constituent := {
  c_symbol : string;
  c_name : string
}.

Record EarningsSurprise := {
  actual_eps : float;
  estimate_eps : float;
  actual_revenue : float;
  estimate_revenue : float
}.

Record ReportEntry := {
  name : string;
  symbol : string;
  price : float;
  good : bool
}.

Definition API_BASE : string := "https://finnhub.io/api/v1".

Definition dq : string := String (ascii_of_nat 34) EmptyString.
Definition nl : string := String (ascii_of_nat 10) EmptyString.

(** ** [get_sp500_symbols] *)

(** The cells of a column.  A label that the table lacks raises a
    [KeyError]; its key here is the label, whereas the text of the message
    pandas gives names the missing labels in its own words. *)
Definition column (label : string) (df : DataFrame) : result (list string) :=
  match List.find (fun c => String.eqb (fst c) label) df with
  | Some c => Ok (snd c)
  | None => Raise (KeyError label)
  end.

(** [df[["Symbol", "Security"]].rename(...).to_dict("records")] *)
Definition to_records (df : DataFrame) : result (list Constituent) :=
  match column "Symbol" df, column "Security" df with
  | Ok syms, Ok names =>
      Ok (List.map (fun p => {| c_symbol := fst p; c_name := snd p |})
            (List.combine syms names))
  | Raise e, _ => Raise e
  | _, Raise e => Raise e
  end.

Definition get_sp500_symbols (w : world) : M (list Constituent) :=
  tables ← pd_read_html w "https://en.wikipedia.org/wiki/List_of_S%26P_500_companies";
  match tables with
  | [] => raise IndexError
  | sp500_table :: _ => lift (to_records sp500_table)
  end.

Section Script.

(** The runtime's [float(str)], see [Py.to_float]. *)
Variable float_of_str : string -> option float.

(** ** [fetch_quote] *)

Definition fetch_quote (w : world) (symbol token : string) : M (option float) :=
  try_except
    (resp ← session_get w (API_BASE +:+ "/quote")
              [("symbol", symbol); ("token", token)];
     _ ← lift (raise_for_status resp);
     data ← lift (json resp);
     c ← lift (get data "c" PNone);
     f ← lift (to_float float_of_str c);
     mret (Some f))
    (mret None).

(** ** [fetch_last_earnings] *)

Definition earnings_of_record (rec : pyval) : result EarningsSurprise :=
  match get rec "actual" (PInt 0) with
  | Raise e => Raise e
  | Ok a =>
  match to_float float_of_str a with
  | Raise e => Raise e
  | Ok a_eps =>
  match get rec "estimate" (PInt 0) with
  | Raise e => Raise e
  | Ok b =>
  match to_float float_of_str b with
  | Raise e => Raise e
  | Ok e_eps =>
  match get rec "revenueActual" (PInt 0) with
  | Raise e => Raise e
  | Ok c =>
  match to_float float_of_str c with
  | Raise e => Raise e
  | Ok a_rev =>
  match get rec "revenueEstimate" (PInt 0) with
  | Raise e => Raise e
  | Ok d =>
  match to_float float_of_str d with
  | Raise e => Raise e
  | Ok e_rev =>
      Ok {| actual_eps := a_eps; estimate_eps := e_eps;
            actual_revenue := a_rev; estimate_revenue := e_rev |}
  end end end end end end end end.

Definition fetch_last_earnings (w : world) (symbol token : string)
  : M (option EarningsSurprise) :=
  try_except
    (resp ← session_get w (API_BASE +:+ "/stock/earnings")
              [("symbol", symbol); ("token", token)];
     _ ← lift (raise_for_status resp);
     records ← lift (json resp);
     if negb (truthy records) then mret None
     else
       rec ← lift (index0 records);
       e ← lift (earnings_of_record rec);
       mret (Some e))
    (mret None).

(** ** [is_good_earnings] *)

Definition is_good_earnings (record : EarningsSurprise) : bool :=
  float_gt (actual_eps record) (estimate_eps record)
  && float_gt (actual_revenue record) (estimate_revenue record).

(** The initial value of [html_parts]: the page up to the opening of the table body. *)
Definition html_head : list string :=
  [ "<!DOCTYPE html>";
    "<html lang=" +:+ dq +:+ "ja" +:+ dq +:+ ">";
    "<head>";
    "  <meta charset=" +:+ dq +:+ "UTF-8" +:+ dq +:+ ">";
    "  <meta name=" +:+ dq +:+ "viewport" +:+ dq +:+ " content=" +:+ dq +:+ "width=device-width, initial-scale=1.0" +:+ dq +:+ ">";
    "  <title>AI広瀬の米国株決算分析</title>";
    "  <style>";
    "    body { font-family: 'Helvetica Neue', Arial, sans-serif; margin: 0; padding: 0; background-color: #f7f9fc; color: #333; line-height: 1.6; }";
    "    header { background: linear-gradient(60deg, #007bff, #0d47a1); color: #fff; padding: 50px 20px; text-align: center; }";
    "    header h1 { margin: 0; font-size: 2.2rem; }";
    "    header .tagline { margin-top: 10px; font-size: 1.1rem; opacity: 0.85; }";
    "    main { max-width: 960px; margin: 0 auto; padding: 40px 20px; }";
    "    h2 { margin-top: 0; margin-bottom: 15px; color: #0d47a1; border-bottom: 2px solid #007bff; padding-bottom: 4px; font-size: 1.6rem; }";
    "    section { margin-bottom: 40px; }";
    "    p { margin-bottom: 20px; font-size: 0.98rem; }";
    "    ol { margin-left: 20px; margin-bottom: 20px; }";
    "    ol li { margin-bottom: 5px; }";
    "    table { width: 100%; border-collapse: collapse; background-color: #fff; box-shadow: 0 2px 4px rgba(0,0,0,0.05); font-size: 0.92rem; }";
    "    table th, table td { padding: 12px 15px; border-bottom: 1px solid #e0e6ed; vertical-align: middle; }";
    "    table th { background-color: #f3f6fa; text-align: left; font-weight: 600; }";
    "    table tbody tr:nth-child(even) { background-color: #fafbfc; }";
    "    table tbody tr:hover { background-color: #f1f5fa; }";
    "    .good { color: #27ae60; font-weight: 600; }";
    "    .no { color: #c0392b; font-weight: 600; }";
    "    .note { font-size: 0.8rem; color: #666; }";
    "    footer { text-align: center; padding: 25px 10px; background-color: #f3f6fa; color: #444; font-size: 0.85rem; }";
    "    footer a { color: #0d47a1; text-decoration: none; }";
    "  </style>";
    "</head>";
    "<body>";
    "  <header>";
    "    <h1>AI広瀬の米国株決算分析</h1>";
    "    <p class=" +:+ dq +:+ "tagline" +:+ dq +:+ ">個人投資家のための米国株情報サイト</p>";
    "  </header>";
    "  <main>";
    "    <section id=" +:+ dq +:+ "about" +:+ dq +:+ ">";
    "      <h2>サイト概要</h2>";
    "      <p>当サイトは、S&P500 に含まれる米国株を対象に、決算情報と株価を自動収集し、<strong>良い決算</strong>を出した企業を一覧表示します。広瀬隆雄氏が提唱する『良い決算』の条件に基づいて、最新の EPS と売上高が市場予想を上回った銘柄だけを掲載しています。各行では企業名、ティッカー、現在株価、評価結果を確認できます。</p>";
    "    </section>";
    "    <section id=" +:+ dq +:+ "good-earnings" +:+ dq +:+ ">";
    "      <h2>『良い決算』とは？</h2>";
    "      <p>広瀬隆雄氏によると、『良い決算』とは次の 3 つの指標がすべて市場予想（コンセンサス）を上回る決算を指します<sup><a href=" +:+ dq +:+ "#cite-hirosekessan" +:+ dq +:+ ">[1]</a></sup>。</p>";
    "      <ol>";
    "        <li>EPS（1株当たり利益）</li>";
    "        <li>売上高</li>";
    "        <li>会社側ガイダンス（来期・今年度の見通し）</li>";
    "      </ol>";
    "      <p>本サイトではガイダンスデータが取得できないため、1 と 2 の条件を満たす企業を『良い決算』としています。</p>";
    "    </section>";
    "    <section id=" +:+ dq +:+ "table-section" +:+ dq +:+ ">";
    "      <h2>良い決算を出した銘柄一覧</h2>";
    "      <table>";
    "        <thead>";
    "          <tr>";
    "            <th>企業名</th>";
    "            <th>ティッカー</th>";
    "            <th>株価（USD）</th>";
    "            <th>評価結果</th>";
    "          </tr>";
    "        </thead>";
    "        <tbody>" ].

(** The lines appended after the rows. *)
Definition html_tail : list string :=
  [ "        </tbody>";
    "      </table>";
    "      <p class=" +:+ dq +:+ "note" +:+ dq +:+ ">表に表示されているデータは Finnhub API を使用して生成されています。API は RESTful な JSON 形式でレスポンスを返し、すべての GET リクエストで token パラメータが必要です【421114312369163†L139-L154】。API キーの設定方法についてはリポジトリの README を参照してください。</p>";
    "    </section>";
    "    <section id=" +:+ dq +:+ "footnotes" +:+ dq +:+ ">";
    "      <p id=" +:+ dq +:+ "cite-hirosekessan" +:+ dq +:+ " class=" +:+ dq +:+ "note" +:+ dq +:+ "><strong>[1]</strong> 良い決算の条件は EPS、売上高、会社ガイダンスが市場予想をすべて上回ること【643053757984928†L296-L304】。</p>";
    "    </section>";
    "  </main>";
    "  <footer>";
    "    <p>&copy; {year} AI広瀬の米国株決算分析. All rights reserved.</p>";
    "  </footer>";
    "</body>";
    "</html>" ].

(** The line appended to [html_parts] for one entry. *)
Definition row (entry : ReportEntry) : string :=
  let cls := if good entry then "good" else "no" in
  let result_text := if good entry then "良い決算" else "該当なし" in
  "          <tr><td>" +:+ name entry +:+ "</td><td>" +:+ symbol entry
  +:+ "</td><td>" +:+ format_2f (price entry)
  +:+ "</td><td class=" +:+ dq +:+ cls +:+ dq +:+ ">" +:+ result_text
  +:+ "</td></tr>".

(** ** [build_html] *)

(** The lines of the page before the year is filled in. *)
Definition html_parts_of (entries : list ReportEntry) : list string :=
  let html_parts :=
    fold_left (fun parts entry => (parts ++ [row entry])%list) entries html_head in
  (html_parts ++ html_tail)%list.

Definition build_html (w : world) (entries : list ReportEntry) : result string :=
  format (join nl (html_parts_of entries))
         {[ "year" := PInt (dt_year (now w)) ]}.

(** ** [main] *)

(** [entries.sort(key=lambda e: e["symbol"])]: a stable sort that compares
    the keys with [<]. *)
Fixpoint insert_by_symbol (e : ReportEntry) (l : list ReportEntry)
  : list ReportEntry :=
  match l with
  | [] => [e]
  | y :: l' =>
      if String.ltb (symbol y) (symbol e) then y :: insert_by_symbol e l'
      else e :: l
  end.

Definition sort_by_symbol (l : list ReportEntry) : list ReportEntry :=
  fold_right insert_by_symbol [] l.

(** The loop over the constituents; [entries] is the list built so far. *)
Fixpoint for_each_symbol (w : world) (token : string)
    (sp500 : list Constituent) (entries : list ReportEntry)
  : M (list ReportEntry) :=
  match sp500 with
  | [] => mret entries
  | item :: rest =>
      quote ← fetch_quote w (c_symbol item) token;
      earnings ← fetch_last_earnings w (c_symbol item) token;
      match quote, earnings with
      | Some q, Some e =>
          let good := is_good_earnings e in
          if good then
            for_each_symbol w token rest
              (entries ++ [{| name := c_name item; symbol := c_symbol item;
                              price := q; good := good |}])%list
          else for_each_symbol w token rest entries
      | _, _ => for_each_symbol w token rest entries
      end
  end.

(** [main] from the constituent list to the sorted entries it renders. *)
Definition main_entries (w : world) (token : string) : M (list ReportEntry) :=
  sp500 ← get_sp500_symbols w;
  entries ← for_each_symbol w token sp500 [];
  mret (sort_by_symbol entries).

Definition summary (entries : list ReportEntry) : string :=
  "Generated HTML for " +:+ str_of_nat (N.of_nat (length entries))
  +:+ " companies with good earnings.".

Definition main (w : world) : M unit :=
  match getenv w "FINNHUB_API_KEY" with
  | None | Some EmptyString =>
      raise (RuntimeError
        "FINNHUB_API_KEY environment variable not set. Please supply your Finnhub API key.")
  | Some token =>
      entries ← main_entries w token;
      html ← lift (build_html w entries);
      _ ← write_file w (path_join (script_dir w) "index.html") html;
      print (summary entries)
  end.

End Script.

End UpdateData.

(* ===================================================================== *)
(** * Vocabulary of the statements, and concrete runs                      *)
(* ===================================================================== *)

Module Scenarios.
Import Py UpdateData.

(** The events of the two requests made for a symbol. *)
Definition quote_request (symbol token : string) : event :=
  EvHttpGet (API_BASE +:+ "/quote") [("symbol", symbol); ("token", token)].

Definition earnings_request (symbol token : string) : event :=
  EvHttpGet (API_BASE +:+ "/stock/earnings") [("symbol", symbol); ("token", token)].

(** The event of loading the constituent page. *)
Definition constituents_request : event :=
  EvReadHtml "https://en.wikipedia.org/wiki/List_of_S%26P_500_companies".

(** The order the entries are sorted by. *)
Definition symbol_le (a b : ReportEntry) : Prop :=
  String.leb (symbol a) (symbol b) = true.

(** The binary64 values of the literals used below. *)
Definition f0 : float := S754_zero false.
Definition f1_50 : float := S754_finite false 6755399441055744 (-52).
Definition f1_90 : float := S754_finite false 8556839292003942 (-52).
Definition f2_00 : float := S754_finite false 4503599627370496 (-51).
Definition f2_10 : float := S754_finite false 4728779608739021 (-51).
Definition f101_23 : float := S754_finite false 7123427973104927 (-46).
Definition f480 : float := S754_finite false 8444249301319680 (-44).
Definition f500 : float := S754_finite false 8796093022208000 (-44).

(** The correctly rounded quotient of two integers, to check the constants. *)
Definition ratio (n d : Z) : float :=
  SFdiv prec emax (binary_normalize prec emax n 0 false)
                  (binary_normalize prec emax d 0 false).

(** No string is read as a float in these runs. *)
Definition no_str : string -> option float := fun _ => None.

Definition clock : datetime :=
  {| dt_year := 2025; dt_month := 7; dt_day := 1; dt_hour := 6;
     dt_minute := 30; dt_second := 0; dt_microsecond := 0 |}.

Definition later_clock : datetime :=
  {| dt_year := 2025; dt_month := 12; dt_day := 31; dt_hour := 23;
     dt_minute := 59; dt_second := 59; dt_microsecond := 999999 |}.

Definition beats : EarningsSurprise :=
  {| actual_eps := f2_10; estimate_eps := f2_00;
     actual_revenue := f500; estimate_revenue := f480 |}.

Definition misses_eps : EarningsSurprise :=
  {| actual_eps := f1_90; estimate_eps := f2_00;
     actual_revenue := f500; estimate_revenue := f480 |}.

Definition equal_eps : EarningsSurprise :=
  {| actual_eps := f1_50; estimate_eps := f1_50;
     actual_revenue := f500; estimate_revenue := f480 |}.

Definition alpha : ReportEntry :=
  {| name := "Alpha Corp"; symbol := "AAA"; price := f101_23; good := true |}.

Definition zeta : ReportEntry :=
  {| name := "Zeta Inc"; symbol := "ZZZ"; price := f101_23; good := true |}.

Definition beta : ReportEntry :=
  {| name := "Beta Ltd"; symbol := "BBB"; price := f101_23; good := true |}.

(** The table of the constituent page. *)
Definition table_of (rows : list (string * string)) : DataFrame :=
  [ ("Symbol", List.map fst rows); ("Security", List.map snd rows) ].

(** Bodies of the two Finnhub answers. *)
Definition quote_body (c : float) : pyval :=
  PDict (<["c" := PFloat c]> (<["pc" := PFloat c]> ∅)).

Definition earnings_record (e : EarningsSurprise) : gmap string pyval :=
  <["actual" := PFloat (actual_eps e)]>
  (<["estimate" := PFloat (estimate_eps e)]>
  (<["revenueActual" := PFloat (actual_revenue e)]>
  (<["revenueEstimate" := PFloat (estimate_revenue e)]> ∅))).

Definition ok_json (body : pyval) : result response :=
  Ok {| status_code := 200; json_body := Some body |}.

Definition network_error : result response := Raise (OtherError "ConnectionError").

Definition param (key : string) (params : list (string * string)) : string :=
  match List.find (fun p => String.eqb (fst p) key) params with
  | Some p => snd p
  | None => EmptyString
  end.

(** A world that serves one constituent table and answers the two endpoints
    per symbol. *)
Definition serve (token : option string) (rows : list (string * string))
    (quote earnings : string -> result response) (t : datetime) : world :=
  {| getenv := fun k => if String.eqb k "FINNHUB_API_KEY" then token else None;
     script_dir := "/srv/site";
     now := t;
     read_html := fun _ _ => Ok [table_of rows];
     http_get := fun _ url params =>
       if String.eqb url (API_BASE +:+ "/quote") then quote (param "symbol" params)
       else earnings (param "symbol" params);
     fs_write := fun _ _ _ => None |}.

Definition all_beat : string -> result response :=
  fun _ => ok_json (PList [PDict (earnings_record beats)]).

Definition all_quoted : string -> result response :=
  fun _ => ok_json (quote_body f101_23).

(** One qualifying constituent. *)
Definition one_symbol : world :=
  serve (Some "key") [("AAA", "Alpha Corp")] all_quoted all_beat clock.

(** Two qualifying constituents, supplied in descending order. *)
Definition two_symbols : world :=
  serve (Some "key") [("ZZZ", "Zeta Inc"); ("AAA", "Alpha Corp")]
        all_quoted all_beat clock.

(** The quote of AAA cannot be fetched; BBB qualifies. *)
Definition quote_fails : world :=
  serve (Some "key") [("AAA", "Alpha Corp"); ("BBB", "Beta Ltd")]
        (fun s => if String.eqb s "AAA" then network_error else ok_json (quote_body f101_23))
        all_beat clock.

(** One constituent whose EPS misses the estimate. *)
Definition eps_missed : world :=
  serve (Some "key") [("AAA", "Alpha Corp")] all_quoted
        (fun _ => ok_json (PList [PDict (earnings_record misses_eps)])) clock.

(** An empty credential in the environment. *)
Definition empty_credential : world :=
  serve (Some EmptyString) [("AAA", "Alpha Corp")] all_quoted all_beat clock.

(** No credential in the environment. *)
Definition no_credential : world :=
  serve None [("AAA", "Alpha Corp")] all_quoted all_beat clock.

(** The first earnings record lacks the [actual] field. *)
Definition record_without_actual : gmap string pyval :=
  <["estimate" := PFloat f2_00]>
  (<["revenueActual" := PFloat f500]>
  (<["revenueEstimate" := PFloat f480]> ∅)).

Definition missing_actual : world :=
  serve (Some "key") [("AAA", "Alpha Corp")] all_quoted
        (fun _ => ok_json (PList [PDict record_without_actual])) clock.

(** The requests the loop makes for a list of constituents, in order. *)
Definition requests_for (token : string) (sp500 : list Constituent) : trace :=
  flat_map (fun item => [quote_request (c_symbol item) token;
                         earnings_request (c_symbol item) token]) sp500.

(** The symbol and name of an entry and of a constituent. *)
Definition entry_key (e : ReportEntry) : string * string := (symbol e, name e).

Definition constituent_key (c : Constituent) : string * string :=
  (c_symbol c, c_name c).

(** The network answers a request the same way whatever happened before. *)
Definition stateless (w : world) : Prop :=
  forall tr tr' url params, http_get w tr url params = http_get w tr' url params.

(** The entry a constituent gets when it is looked up on its own. *)
Definition entry_for (float_of_str : string -> option float) (w : world)
    (token : string) (item : Constituent) : option ReportEntry :=
  match fst (fetch_quote float_of_str w (c_symbol item) token []),
        fst (fetch_last_earnings float_of_str w (c_symbol item) token []) with
  | Ok (Some q), Ok (Some e) =>
      if is_good_earnings e
      then Some {| name := c_name item; symbol := c_symbol item;
                   price := q; good := true |}
      else None
  | _, _ => None
  end.

(** The fields of an earnings record: each is the float of the value found
    under its key, or of 0 when the key is absent. *)
Definition fields_of (float_of_str : string -> option float)
    (d : gmap string pyval) (e : EarningsSurprise) : Prop :=
  to_float float_of_str (default (PInt 0) (d !! "actual")) = Ok (actual_eps e)
  /\ to_float float_of_str (default (PInt 0) (d !! "estimate")) = Ok (estimate_eps e)
  /\ to_float float_of_str (default (PInt 0) (d !! "revenueActual"))
     = Ok (actual_revenue e)
  /\ to_float float_of_str (default (PInt 0) (d !! "revenueEstimate"))
     = Ok (estimate_revenue e).

(** The record with its actual and estimated figures exchanged. *)
Definition mirror (r : EarningsSurprise) : EarningsSurprise :=
  {| actual_eps := estimate_eps r; estimate_eps := actual_eps r;
     actual_revenue := estimate_revenue r; estimate_revenue := actual_revenue r |}.

(** Two tables on the page; the second one is not the constituent list. *)
Definition two_tables : world :=
  {| getenv := fun k => if String.eqb k "FINNHUB_API_KEY" then Some "key" else None;
     script_dir := "/srv/site";
     now := clock;
     read_html := fun _ _ =>
       Ok [ [ ("Symbol", ["ZZZ"; "AAA"]); ("GICS Sector", ["Tech"; "Energy"]);
              ("Security", ["Zeta Inc"; "Alpha Corp"]) ];
            [ ("Symbol", ["OLD"]); ("Security", ["Removed Corp"]) ] ];
     http_get := fun _ url params =>
       if String.eqb url (API_BASE +:+ "/quote") then all_quoted (param "symbol" params)
       else all_beat (param "symbol" params);
     fs_write := fun _ _ _ => None |}.

(** The constituent page cannot be loaded. *)
Definition page_down : world :=
  {| getenv := fun k => if String.eqb k "FINNHUB_API_KEY" then Some "key" else None;
     script_dir := "/srv/site";
     now := clock;
     read_html := fun _ _ => Raise (OtherError "URLError");
     http_get := fun _ _ _ => network_error;
     fs_write := fun _ _ _ => None |}.

(** The first earnings record has a [null] estimate. *)
Definition record_with_null : gmap string pyval :=
  <["estimate" := PNone]> (earnings_record beats).

Definition null_estimate : world :=
  serve (Some "key") [("AAA", "Alpha Corp")] all_quoted
        (fun _ => ok_json (PList [PDict record_with_null])) clock.

(** The earnings records carry the two EPS fields only. *)
Definition record_eps_only : gmap string pyval :=
  <["actual" := PFloat f2_10]> (<["estimate" := PFloat f2_00]> ∅).

Definition eps_only : world :=
  serve (Some "key") [("AAA", "Alpha Corp")] all_quoted
        (fun _ => ok_json (PList [PDict record_eps_only])) clock.

(** The earnings answer is not a non-empty array. *)
Definition empty_earnings : world :=
  serve (Some "key") [("AAA", "Alpha Corp")] all_quoted
        (fun _ => ok_json (PList [])) clock.

(** The earnings array holds an older, missed quarter after the latest. *)
Definition two_quarters : world :=
  serve (Some "key") [("AAA", "Alpha Corp")] all_quoted
        (fun _ => ok_json (PList [PDict (earnings_record beats);
                                  PDict (earnings_record misses_eps)])) clock.

(** An estimate that is not a number. *)
Definition nan_estimate : EarningsSurprise :=
  {| actual_eps := f2_10; estimate_eps := S754_nan;
     actual_revenue := f500; estimate_revenue := f480 |}.

Definition aaa : Constituent := {| c_symbol := "AAA"; c_name := "Alpha Corp" |}.
Definition bbb : Constituent := {| c_symbol := "BBB"; c_name := "Beta Ltd" |}.
Definition zzz : Constituent := {| c_symbol := "ZZZ"; c_name := "Zeta Inc" |}.

(** The entry a constituent gets when its turn in the loop comes after the
    events [tr]: it needs a quote, an earnings record, and earnings that
    pass [is_good_earnings]. *)
Definition entry_at (float_of_str : string -> option float) (w : world)
    (token : string) (tr : trace) (item : Constituent) : option ReportEntry :=
  match fst (fetch_quote float_of_str w (c_symbol item) token tr),
        fst (fetch_last_earnings float_of_str w (c_symbol item) token
               (tr ++ [quote_request (c_symbol item) token])%list) with
  | Ok (Some q), Ok (Some r) =>
      if is_good_earnings r
      then Some {| name := c_name item; symbol := c_symbol item;
                   price := q; good := true |}
      else None
  | _, _ => None
  end.

(** The constituents that qualify in their turn, in the order of the table,
    when the loop starts after the events [tr]. *)
Fixpoint selected (float_of_str : string -> option float) (w : world)
    (token : string) (tr : trace) (sp500 : list Constituent)
  : list ReportEntry :=
  match sp500 with
  | [] => []
  | item :: rest =>
      (match entry_at float_of_str w token tr item with
       | Some e => [e]
       | None => []
       end
       ++ selected float_of_str w token
            (tr ++ [quote_request (c_symbol item) token;
                    earnings_request (c_symbol item) token]) rest)%list
  end.

(** The entry [e] stands for a row of the table whose quote was available
    and whose earnings, as fetched in the turn of that row, passed
    [is_good_earnings]; the loop started after the events [tr]. *)
Definition qualified_in_run (float_of_str : string -> option float) (w : world)
    (token : string) (tr : trace) (sp500 : list Constituent) (e : ReportEntry)
  : Prop :=
  exists before item after q r,
    sp500 = (before ++ item :: after)%list
    /\ fst (fetch_quote float_of_str w (c_symbol item) token
              (tr ++ requests_for token before)%list) = Ok (Some q)
    /\ fst (fetch_last_earnings float_of_str w (c_symbol item) token
              ((tr ++ requests_for token before)
               ++ [quote_request (c_symbol item) token])%list) = Ok (Some r)
    /\ is_good_earnings r = true
    /\ e = {| name := c_name item; symbol := c_symbol item;
              price := q; good := true |}.

(** AAA misses its EPS estimate, BBB beats both estimates. *)
Definition mixed_earnings : world :=
  serve (Some "key") [("AAA", "Alpha Corp"); ("BBB", "Beta Ltd")] all_quoted
        (fun s => if String.eqb s "AAA"
                  then ok_json (PList [PDict (earnings_record misses_eps)])
                  else ok_json (PList [PDict (earnings_record beats)]))
        clock.

(** The first table of the page has no [Security] column. *)
Definition no_security_column : world :=
  {| getenv := fun k => if String.eqb k "FINNHUB_API_KEY" then Some "key" else None;
     script_dir := "/srv/site";
     now := clock;
     read_html := fun _ _ => Ok [ [ ("Symbol", ["AAA"]); ("Name", ["Alpha Corp"]) ] ];
     http_get := fun _ url params =>
       if String.eqb url (API_BASE +:+ "/quote") then all_quoted (param "symbol" params)
       else all_beat (param "symbol" params);
     fs_write := fun _ _ _ => None |}.

End Scenarios.

(* ===================================================================== *)
(** * Properties                                                           *)
(* ===================================================================== *)

Import Py UpdateData Scenarios.

(** ** The runtime model on known values *)

Example ratio_price : ratio 10123 100 = f101_23.
Proof. reflexivity. Qed.

Example ratio_eps : ratio 21 10 = f2_10 /\ ratio 19 10 = f1_90 /\ ratio 3 2 = f1_50.
Proof. repeat split; reflexivity. Qed.

Example format_2f_price : format_2f f101_23 = "101.23".
Proof. reflexivity. Qed.

(** 0.125 is a tie between 0.12 and 0.13 and goes to the even digit; 0.375
    goes up to 0.38. *)
Example format_2f_ties :
  format_2f (S754_finite false 1 (-3)) = "0.12"
  /\ format_2f (S754_finite false 3 (-3)) = "0.38".
Proof. split; reflexivity. Qed.

(** 2.675 is stored slightly below the literal and prints as 2.67. *)
Example format_2f_below_half : format_2f (ratio 2675 1000) = "2.67".
Proof. reflexivity. Qed.

Example format_2f_special :
  format_2f S754_nan = "nan"
  /\ format_2f (S754_infinity true) = "-inf"
  /\ format_2f (S754_zero true) = "-0.00"
  /\ format_2f (S754_finite true 1 (-30)) = "-0.00".
Proof. repeat split; reflexivity. Qed.

Example format_year :
  format "<p>&copy; {year} site</p>" {[ "year" := PInt 2025 ]}
  = Ok "<p>&copy; 2025 site</p>".
Proof. reflexivity. Qed.

(** Doubled braces are the way to write a brace in a format string. *)
Example format_escaped_rule :
  format "p {{ margin: 0; }} {year}" {[ "year" := PInt 2025 ]}
  = Ok "p { margin: 0; } 2025".
Proof. reflexivity. Qed.

(** A CSS rule with single braces is read as a replacement field named by
    the text before its first colon. *)
Example format_css_rule :
  format "p { margin: 0; } {year}" {[ "year" := PInt 2025 ]}
  = Raise (KeyError " margin").
Proof. reflexivity. Qed.

Example format_stray_braces :
  format "a } b" ∅ = Raise (ValueError "Single '}' encountered in format string")
  /\ format "a {" ∅ = Raise (ValueError "Single '{' encountered in format string")
  /\ format "a {} b" ∅ = Raise IndexError.
Proof. repeat split; reflexivity. Qed.

(** ** The evaluator *)

Lemma float_le_not_gt (a b : float) : float_le a b = true -> float_gt a b = false.
Proof.
  unfold float_le, SFleb, float_gt.
  destruct (SFcompare a b) as [[ | | ] | ]; congruence.
Qed.

Lemma float_eq_le (a b : float) : SFeqb a b = true -> float_le a b = true.
Proof.
  unfold float_le, SFleb, SFeqb.
  destruct (SFcompare a b) as [[ | | ] | ]; congruence.
Qed.

(** A NaN on either side of a comparison makes the record fail. *)
Lemma is_good_earnings_nan (r : EarningsSurprise) :
  actual_eps r = S754_nan \/ estimate_eps r = S754_nan ->
  is_good_earnings r = false.
Proof.
  unfold is_good_earnings, float_gt. intros [H | H]; rewrite H.
  - reflexivity.
  - destruct (actual_eps r); reflexivity.
Qed.

(** C1. [is_good_earnings] is true for every record whose actual EPS is
    strictly greater than the estimated EPS and whose actual revenue is
    strictly greater than the estimated revenue; it is false for every
    record in which one of the two comparisons is less than or equal, and in
    particular when the two values of either pair are equal. *)
Theorem is_good_earnings_strict (r : EarningsSurprise) :
  (float_gt (actual_eps r) (estimate_eps r) = true
   /\ float_gt (actual_revenue r) (estimate_revenue r) = true ->
   is_good_earnings r = true)
  /\ (float_le (actual_eps r) (estimate_eps r) = true
      \/ float_le (actual_revenue r) (estimate_revenue r) = true ->
      is_good_earnings r = false)
  /\ (SFeqb (actual_eps r) (estimate_eps r) = true
      \/ SFeqb (actual_revenue r) (estimate_revenue r) = true ->
      is_good_earnings r = false).
Proof.
  unfold is_good_earnings. split; [ | split ].
  - intros [-> ->]. reflexivity.
  - intros [H | H]; apply float_le_not_gt in H; rewrite H.
    + reflexivity.
    + apply andb_false_r.
  - intros [H | H]; apply float_eq_le, float_le_not_gt in H; rewrite H.
    + reflexivity.
    + apply andb_false_r.
Qed.

Lemma is_good_earnings_strict_witness :
  is_good_earnings beats = true
  /\ is_good_earnings misses_eps = false
  /\ is_good_earnings equal_eps = false.
Proof.
  split; [ | split ].
  - apply (proj1 (is_good_earnings_strict beats)). split; reflexivity.
  - apply (proj1 (proj2 (is_good_earnings_strict misses_eps))).
    left. reflexivity.
  - apply (proj2 (proj2 (is_good_earnings_strict equal_eps))).
    left. reflexivity.
Defined.

(** ** The renderer *)

Lemma fold_rows (es : list ReportEntry) (parts : list string) :
  fold_left (fun parts entry => (parts ++ [row entry])%list) es parts
  = (parts ++ List.map row es)%list.
Proof.
  revert parts. induction es as [ | e es IH]; intros parts; simpl.
  - now rewrite app_nil_r.
  - rewrite IH, <- app_assoc. reflexivity.
Qed.

(** The loop appends one line per entry, in the order of the entries,
    between the fixed head and tail of the page. *)
Lemma html_parts_of_rows (es : list ReportEntry) :
  html_parts_of es = (html_head ++ List.map row es ++ html_tail)%list.
Proof. unfold html_parts_of. rewrite fold_rows, <- app_assoc. reflexivity. Qed.

Lemma html_parts_of_length (es : list ReportEntry) :
  length (html_parts_of es)
  = (length html_head + length es + length html_tail)%nat.
Proof.
  rewrite html_parts_of_rows, !length_app, length_map. lia.
Qed.

(** The line of an entry holds its name, its symbol, its price with two
    decimals and the label of its flag, in this order. *)
Lemma row_cells (e : ReportEntry) :
  row e = "          <tr><td>" +:+ name e +:+ "</td><td>" +:+ symbol e
          +:+ "</td><td>" +:+ format_2f (price e) +:+ "</td><td class=" +:+ dq
          +:+ (if good e then "good" else "no") +:+ dq +:+ ">"
          +:+ (if good e then "良い決算" else "該当なし") +:+ "</td></tr>".
Proof. reflexivity. Qed.

(** The first replacement field [format] meets in the page is the body of
    the CSS rule for [body], whose name is not a keyword argument: the call
    raises before any row is reached, whatever the entries and the year. *)
Lemma build_html_key_error (w : world) (es : list ReportEntry) :
  build_html w es = Raise (KeyError " font-family").
Proof.
  unfold build_html. rewrite html_parts_of_rows.
  vm_compute. reflexivity.
Qed.

(** C2 (fails on the code). The claim is that [build_html] returns an HTML
    string for every list of well-formed entries.  Every [ReportEntry] is
    well formed by its type, and for no list and no clock does [build_html]
    return a string: it raises [KeyError]. *)
Theorem build_html_never_returns (w : world) (es : list ReportEntry) :
  is_ok (build_html w es) = false
  /\ forall html, build_html w es <> Ok html.
Proof.
  rewrite build_html_key_error. split; [ reflexivity | discriminate ].
Qed.

(** C3 (fails on the code). The claim is that [build_html] of the empty list
    still produces a complete document with an empty table body.  The lines
    it assembles are the head and the tail of the page with no row between
    them, but the call raises [KeyError] and produces no document. *)
Theorem build_html_empty_raises (w : world) :
  html_parts_of [] = (html_head ++ html_tail)%list
  /\ build_html w [] = Raise (KeyError " font-family").
Proof.
  split; [ reflexivity | apply build_html_key_error ].
Qed.

(** C9 (fails on the code). The claim is that the renderer emits one table
    row per entry, with name, symbol, two-decimal price and label.  For the
    single entry (Alpha Corp, AAA, 101.23, qualifying) the loop does build
    that one line, but [build_html] raises [KeyError] and emits nothing. *)
Theorem build_html_alpha_raises (w : world) :
  List.map row [alpha]
  = [ "          <tr><td>Alpha Corp</td><td>AAA</td><td>101.23</td><td class="
      +:+ dq +:+ "good" +:+ dq +:+ ">良い決算</td></tr>" ]
  /\ html_parts_of [alpha] = (html_head ++ List.map row [alpha] ++ html_tail)%list
  /\ build_html w [alpha] = Raise (KeyError " font-family").
Proof.
  split; [ reflexivity | split ].
  - apply html_parts_of_rows.
  - apply build_html_key_error.
Qed.

(** C10 (fails on the code). The claim is that two calls of [build_html] on
    the same entries in the same year produce byte-identical output strings.
    Neither call produces a string: under every clock, and so under any two
    clocks of the same year, both calls raise [KeyError]. *)
Theorem build_html_twice_no_output (w1 w2 : world) (es : list ReportEntry) :
  build_html w1 es = Raise (KeyError " font-family")
  /\ build_html w2 es = Raise (KeyError " font-family")
  /\ forall html1 html2,
       ~ (build_html w1 es = Ok html1 /\ build_html w2 es = Ok html2).
Proof.
  rewrite !build_html_key_error. repeat split.
  intros html1 html2 [H _]. discriminate.
Qed.

(** ** The market data client *)

Ltac run_monad :=
  unfold try_except, mbind, M_bind, mret, M_ret, session_get, lift, raise,
         quote_request, earnings_request in *.

(* Case analysis on an innermost scrutinee of the goal. *)
Ltac break_match :=
  match goal with
  | |- context [match ?x with _ => _ end] =>
      lazymatch x with
      | context [match _ with _ => _ end] => fail
      | _ => destruct x eqn:?
      end
  end.

Section Client.

Variable float_of_str : string -> option float.
Variable w : world.

(** [fetch_quote] makes one request and never raises. *)
Lemma fetch_quote_total (symbol token : string) (tr : trace) :
  exists q, fetch_quote float_of_str w symbol token tr
            = (Ok q, (tr ++ [quote_request symbol token])%list).
Proof.
  unfold fetch_quote. run_monad. repeat break_match; eauto.
Qed.

(** [fetch_last_earnings] makes one request and never raises. *)
Lemma fetch_last_earnings_total (symbol token : string) (tr : trace) :
  exists e, fetch_last_earnings float_of_str w symbol token tr
            = (Ok e, (tr ++ [earnings_request symbol token])%list).
Proof.
  unfold fetch_last_earnings. run_monad. repeat break_match; eauto.
Qed.

(** A failed request leaves the quote unavailable. *)
Lemma fetch_quote_request_fails (symbol token : string) (tr : trace) (e : exn) :
  http_get w tr (API_BASE +:+ "/quote") [("symbol", symbol); ("token", token)]
  = Raise e ->
  fetch_quote float_of_str w symbol token tr
  = (Ok None, (tr ++ [quote_request symbol token])%list).
Proof.
  intros H. unfold fetch_quote. run_monad. rewrite H. reflexivity.
Qed.

(** A quote without the price field is unavailable: [get] yields [None],
    which [float] rejects. *)
Lemma fetch_quote_missing_price (symbol token : string) (tr : trace)
    (resp : response) (d : gmap string pyval) :
  http_get w tr (API_BASE +:+ "/quote") [("symbol", symbol); ("token", token)]
  = Ok resp ->
  json_body resp = Some (PDict d) ->
  d !! "c" = None ->
  fetch_quote float_of_str w symbol token tr
  = (Ok None, (tr ++ [quote_request symbol token])%list).
Proof.
  intros Hget Hbody Hc. unfold fetch_quote, json, get. run_monad.
  rewrite Hget. destruct (raise_for_status resp); [ | reflexivity ].
  rewrite Hbody, Hc. reflexivity.
Qed.

(** A field that is absent from a record is read as the integer 0. *)
Lemma absent_field_zero (d : gmap string pyval) (key : string) :
  d !! key = None ->
  to_float float_of_str (default (PInt 0) (d !! key)) = Ok (S754_zero false).
Proof. intros ->. reflexivity. Qed.

(** A field that is present with the value [null] cannot be converted. *)
Lemma null_field_rejected (d : gmap string pyval) (key : string) :
  d !! key = Some PNone ->
  to_float float_of_str (default (PInt 0) (d !! key)) = Raise TypeError.
Proof. intros ->. reflexivity. Qed.

(** C4 (amended). When the first record of the earnings answer lacks some of
    the four numeric fields, [fetch_last_earnings] does not return [None]:
    it reads each absent field as 0 and returns the earnings record, with
    0.0 in the absent fields, as soon as the fields that are present convert
    to floats.  A failed request, a 4xx or 5xx status and a body that is not
    JSON still give [None]. *)
Theorem fetch_last_earnings_absent_field (symbol token : string) (tr : trace) :
  let answer :=
    http_get w tr (API_BASE +:+ "/stock/earnings")
             [("symbol", symbol); ("token", token)] in
  let result := fetch_last_earnings float_of_str w symbol token tr in
  let tr' := (tr ++ [earnings_request symbol token])%list in
  (forall resp d rest a b c e,
      answer = Ok resp ->
      raise_for_status resp = Ok tt ->
      json_body resp = Some (PList (PDict d :: rest)) ->
      to_float float_of_str (default (PInt 0) (d !! "actual")) = Ok a ->
      to_float float_of_str (default (PInt 0) (d !! "estimate")) = Ok b ->
      to_float float_of_str (default (PInt 0) (d !! "revenueActual")) = Ok c ->
      to_float float_of_str (default (PInt 0) (d !! "revenueEstimate")) = Ok e ->
      result = (Ok (Some {| actual_eps := a; estimate_eps := b;
                            actual_revenue := c; estimate_revenue := e |}), tr')
      /\ (d !! "actual" = None -> a = S754_zero false)
      /\ (d !! "estimate" = None -> b = S754_zero false)
      /\ (d !! "revenueActual" = None -> c = S754_zero false)
      /\ (d !! "revenueEstimate" = None -> e = S754_zero false))
  /\ (forall ex, answer = Raise ex -> result = (Ok None, tr'))
  /\ (forall resp,
        answer = Ok resp ->
        (400 <= status_code resp < 600)%Z \/ json_body resp = None ->
        result = (Ok None, tr')).
Proof.
  cbv zeta. split; [ | split ].
  - intros resp d rest a b c e Hget Hstatus Hbody Ha Hb Hc He.
    split.
    + unfold fetch_last_earnings, json, earnings_of_record, get. run_monad.
      rewrite Hget, Hstatus, Hbody. simpl.
      rewrite Ha, Hb, Hc, He. reflexivity.
    + repeat split; intros Habs; apply absent_field_zero in Habs; congruence.
  - intros ex Hget. unfold fetch_last_earnings. run_monad.
    rewrite Hget. reflexivity.
  - intros resp Hget Hbad. unfold fetch_last_earnings, json, raise_for_status.
    run_monad. rewrite Hget.
    destruct Hbad as [[Hlo Hhi] | Hbody].
    + apply Z.leb_le in Hlo. apply Z.ltb_lt in Hhi. rewrite Hlo, Hhi.
      reflexivity.
    + rewrite Hbody. break_match; reflexivity.
Qed.

End Client.

(** C4, as first stated, fails: the first record lacks [actual], and the
    result is an earnings record whose actual EPS is 0.0, not [None]. *)
Lemma fetch_last_earnings_absent_actual :
  record_without_actual !! "actual" = None
  /\ fst (fetch_last_earnings no_str missing_actual "AAA" "key" [])
     = Ok (Some {| actual_eps := f0; estimate_eps := f2_00;
                   actual_revenue := f500; estimate_revenue := f480 |})
  /\ fst (fetch_last_earnings no_str missing_actual "AAA" "key" []) <> Ok None.
Proof.
  split; [ reflexivity | ].
  assert (H : fst (fetch_last_earnings no_str missing_actual "AAA" "key" [])
              = Ok (Some {| actual_eps := f0; estimate_eps := f2_00;
                            actual_revenue := f500; estimate_revenue := f480 |}))
    by (vm_compute; reflexivity).
  split; [ exact H | rewrite H; discriminate ].
Qed.

Lemma fetch_last_earnings_absent_field_witness :
  fetch_last_earnings no_str missing_actual "AAA" "key" []
  = (Ok (Some {| actual_eps := f0; estimate_eps := f2_00;
                 actual_revenue := f500; estimate_revenue := f480 |}),
     [earnings_request "AAA" "key"]).
Proof.
  refine (proj1 (proj1 (fetch_last_earnings_absent_field
                          no_str missing_actual "AAA" "key" [])
                   {| status_code := 200;
                      json_body := Some (PList [PDict record_without_actual]) |}
                   record_without_actual [] f0 f2_00 f500 f480
                   _ _ _ _ _ _ _));
    reflexivity.
Defined.

(** ** Sorting by symbol *)

Lemma ascii_compare_refl (c : ascii) : Ascii.compare c c = Eq.
Proof. unfold Ascii.compare. apply N.compare_refl. Qed.

Lemma ascii_compare_trans (a b c : ascii) (o : comparison) :
  Ascii.compare a b = o -> Ascii.compare b c = o -> Ascii.compare a c = o.
Proof.
  unfold Ascii.compare. destruct o; intros H1 H2.
  - apply N.compare_eq_iff in H1, H2. apply N.compare_eq_iff. congruence.
  - rewrite N.compare_lt_iff in *. lia.
  - rewrite N.compare_gt_iff in *. lia.
Qed.

(** The lexicographic order of strings is transitive. *)
Lemma string_compare_lt_trans (s1 : string) :
  forall s2 s3,
    String.compare s1 s2 = Lt -> String.compare s2 s3 = Lt ->
    String.compare s1 s3 = Lt.
Proof.
  induction s1 as [ | c1 s1 IH]; intros [ | c2 s2] [ | c3 s3]; simpl;
    try congruence.
  destruct (Ascii.compare c1 c2) eqn:H12; try discriminate;
    destruct (Ascii.compare c2 c3) eqn:H23; try discriminate; intros H1 H2.
  - apply Ascii.compare_eq_iff in H12, H23. subst.
    rewrite ascii_compare_refl. eauto.
  - apply Ascii.compare_eq_iff in H12. subst. now rewrite H23.
  - apply Ascii.compare_eq_iff in H23. subst. now rewrite H12.
  - now rewrite (ascii_compare_trans _ _ _ Lt H12 H23).
Qed.

Lemma string_compare_refl (s : string) : String.compare s s = Eq.
Proof.
  induction s as [ | c s IH]; simpl.
  - reflexivity.
  - now rewrite ascii_compare_refl.
Qed.

Lemma string_leb_trans (s1 s2 s3 : string) :
  String.leb s1 s2 = true -> String.leb s2 s3 = true -> String.leb s1 s3 = true.
Proof.
  unfold String.leb.
  destruct (String.compare s1 s2) eqn:H12; try discriminate;
    destruct (String.compare s2 s3) eqn:H23; try discriminate; intros _ _.
  - apply String.compare_eq_iff in H12, H23. subst.
    now rewrite string_compare_refl.
  - apply String.compare_eq_iff in H12. subst. now rewrite H23.
  - apply String.compare_eq_iff in H23. subst. now rewrite H12.
  - now rewrite (string_compare_lt_trans _ _ _ H12 H23).
Qed.

Lemma string_ltb_leb (s1 s2 : string) :
  String.ltb s1 s2 = true -> String.leb s1 s2 = true.
Proof.
  unfold String.ltb, String.leb. destruct (String.compare s1 s2); congruence.
Qed.

Lemma string_not_ltb_leb (s1 s2 : string) :
  String.ltb s1 s2 = false -> String.leb s2 s1 = true.
Proof.
  unfold String.ltb, String.leb. rewrite (String.compare_antisym s2 s1).
  destruct (String.compare s1 s2); simpl; congruence.
Qed.

Lemma symbol_le_trans (a b c : ReportEntry) :
  symbol_le a b -> symbol_le b c -> symbol_le a c.
Proof. apply string_leb_trans. Qed.

Lemma insert_by_symbol_Forall (P : ReportEntry -> Prop) (e : ReportEntry)
    (l : list ReportEntry) :
  P e -> Forall P l -> Forall P (insert_by_symbol e l).
Proof.
  intros He Hl. induction Hl as [ | y l Hy Hl IH]; simpl.
  - constructor; [ exact He | constructor ].
  - destruct (String.ltb (symbol y) (symbol e)); repeat constructor; assumption.
Qed.

Lemma insert_by_symbol_sorted (e : ReportEntry) (l : list ReportEntry) :
  StronglySorted symbol_le l -> StronglySorted symbol_le (insert_by_symbol e l).
Proof.
  intros Hl. induction Hl as [ | y l Hl IH Hy]; simpl.
  - constructor; constructor.
  - destruct (String.ltb (symbol y) (symbol e)) eqn:Hlt.
    + constructor; [ exact IH | ].
      apply insert_by_symbol_Forall; [ | exact Hy ].
      apply string_ltb_leb, Hlt.
    + apply string_not_ltb_leb in Hlt.
      constructor; [ constructor; assumption | ].
      constructor; [ exact Hlt | ].
      eapply Forall_impl; [ exact Hy | ].
      intros z Hz. exact (symbol_le_trans e y z Hlt Hz).
Qed.

Lemma insert_by_symbol_perm (e : ReportEntry) (l : list ReportEntry) :
  Permutation (e :: l) (insert_by_symbol e l).
Proof.
  induction l as [ | y l IH]; simpl.
  - reflexivity.
  - destruct (String.ltb (symbol y) (symbol e)).
    + rewrite perm_swap. now constructor.
    + reflexivity.
Qed.

(** The sort returns its argument in ascending order of the symbols. *)
Lemma sort_by_symbol_sorted (l : list ReportEntry) :
  StronglySorted symbol_le (sort_by_symbol l).
Proof.
  induction l as [ | e l IH]; simpl.
  - constructor.
  - apply insert_by_symbol_sorted, IH.
Qed.

Lemma sort_by_symbol_perm (l : list ReportEntry) :
  Permutation l (sort_by_symbol l).
Proof.
  induction l as [ | e l IH]; simpl.
  - constructor.
  - rewrite <- insert_by_symbol_perm. now constructor.
Qed.

Lemma sort_by_symbol_Forall (P : ReportEntry -> Prop) (l : list ReportEntry) :
  Forall P l -> Forall P (sort_by_symbol l).
Proof.
  intros H. induction H as [ | e l He Hl IH]; simpl.
  - constructor.
  - apply insert_by_symbol_Forall; assumption.
Qed.

(** Entries with equal symbols keep the order they were appended in. *)
Example sort_by_symbol_stable :
  let first := {| name := "first"; symbol := "AAA"; price := f0; good := true |} in
  let second := {| name := "second"; symbol := "AAA"; price := f0; good := true |} in
  sort_by_symbol [zeta; first; second] = [first; second; zeta].
Proof. reflexivity. Qed.

(** ** The pipeline driver *)

Section Driver.

Variable float_of_str : string -> option float.
Variable w : world.

Lemma get_sp500_symbols_trace (tr : trace) :
  exists r, get_sp500_symbols w tr
            = (r, (tr ++ [constituents_request])%list).
Proof.
  unfold get_sp500_symbols, pd_read_html. run_monad.
  repeat break_match; eauto.
Qed.

(** One step of the loop on a constituent whose quote or earnings are
    unavailable: nothing is appended, and the loop goes on with the rest. *)
Lemma for_each_symbol_unavailable (token : string) (item : Constituent)
    (rest : list Constituent) (entries : list ReportEntry) (tr tr1 tr2 : trace)
    (q : option float) (e : option EarningsSurprise) :
  fetch_quote float_of_str w (c_symbol item) token tr = (Ok q, tr1) ->
  fetch_last_earnings float_of_str w (c_symbol item) token tr1 = (Ok e, tr2) ->
  q = None \/ e = None ->
  for_each_symbol float_of_str w token (item :: rest) entries tr
  = for_each_symbol float_of_str w token rest entries tr2.
Proof.
  intros Hq He Hnone. cbn [for_each_symbol]. unfold mbind, M_bind.
  rewrite Hq, He. destruct Hnone as [-> | ->]; [ | destruct q ]; reflexivity.
Qed.

(** One step of the loop on a constituent with a quote and earnings. *)
Lemma for_each_symbol_available (token : string) (item : Constituent)
    (rest : list Constituent) (entries : list ReportEntry) (tr tr1 tr2 : trace)
    (q : float) (e : EarningsSurprise) :
  fetch_quote float_of_str w (c_symbol item) token tr = (Ok (Some q), tr1) ->
  fetch_last_earnings float_of_str w (c_symbol item) token tr1 = (Ok (Some e), tr2) ->
  for_each_symbol float_of_str w token (item :: rest) entries tr
  = for_each_symbol float_of_str w token rest
      (if is_good_earnings e
       then (entries ++ [{| name := c_name item; symbol := c_symbol item;
                            price := q; good := true |}])%list
       else entries) tr2.
Proof.
  intros Hq He. cbn [for_each_symbol]. unfold mbind, M_bind.
  rewrite Hq, He. destruct (is_good_earnings e); reflexivity.
Qed.

(** The loop never raises: it makes two requests per constituent and
    returns a list. *)
Lemma for_each_symbol_runs (token : string) (sp500 : list Constituent) :
  forall (entries : list ReportEntry) (tr : trace),
  exists es reqs,
    for_each_symbol float_of_str w token sp500 entries tr
    = (Ok es, (tr ++ reqs)%list)
    /\ Forall (fun ev => is_request ev = true) reqs
    /\ length reqs = (2 * length sp500)%nat.
Proof.
  induction sp500 as [ | item rest IH]; intros entries tr.
  - exists entries, []. rewrite app_nil_r. repeat split; constructor.
  - destruct (fetch_quote_total float_of_str w (c_symbol item) token tr)
      as [q Hq].
    destruct (fetch_last_earnings_total float_of_str w (c_symbol item) token
                (tr ++ [quote_request (c_symbol item) token])%list)
      as [e He].
    assert (Hstep : exists entries',
               for_each_symbol float_of_str w token (item :: rest) entries tr
               = for_each_symbol float_of_str w token rest entries'
                   ((tr ++ [quote_request (c_symbol item) token])
                    ++ [earnings_request (c_symbol item) token])%list).
    { destruct q as [q | ]; [ destruct e as [e | ] | ].
      - eexists. apply (for_each_symbol_available _ _ _ _ _ _ _ _ _ Hq He).
      - eexists. apply (for_each_symbol_unavailable _ _ _ _ _ _ _ _ _ Hq He).
        now right.
      - eexists. apply (for_each_symbol_unavailable _ _ _ _ _ _ _ _ _ Hq He).
        now left. }
    destruct Hstep as [entries' ->].
    destruct (IH entries'
                ((tr ++ [quote_request (c_symbol item) token])
                 ++ [earnings_request (c_symbol item) token])%list)
      as (es & reqs & Hrun & Hreqs & Hlen).
    exists es, (quote_request (c_symbol item) token
                :: earnings_request (c_symbol item) token :: reqs).
    rewrite Hrun, <- !app_assoc. simpl. repeat split.
    + repeat constructor. exact Hreqs.
    + rewrite Hlen. lia.
Qed.

(** Whatever holds of the entries appended is preserved by the loop. *)
Lemma for_each_symbol_good (token : string) (sp500 : list Constituent) :
  forall (entries es : list ReportEntry) (tr tr' : trace),
    Forall (fun e => good e = true) entries ->
    for_each_symbol float_of_str w token sp500 entries tr = (Ok es, tr') ->
    Forall (fun e => good e = true) es.
Proof.
  induction sp500 as [ | item rest IH]; intros entries es tr tr' Hgood Hrun.
  - cbn in Hrun. injection Hrun as <- _. exact Hgood.
  - destruct (fetch_quote_total float_of_str w (c_symbol item) token tr)
      as [q Hq].
    destruct (fetch_last_earnings_total float_of_str w (c_symbol item) token
                (tr ++ [quote_request (c_symbol item) token])%list)
      as [e He].
    destruct q as [q | ]; [ destruct e as [e | ] | ].
    + rewrite (for_each_symbol_available _ _ _ _ _ _ _ _ _ Hq He) in Hrun.
      apply IH in Hrun; [ exact Hrun | ].
      destruct (is_good_earnings e); [ | exact Hgood ].
      apply Forall_app. split; [ exact Hgood | ].
      constructor; [ reflexivity | constructor ].
    + rewrite (for_each_symbol_unavailable _ _ _ _ _ _ _ _ _ Hq He) in Hrun
        by now right.
      apply IH in Hrun; assumption.
    + rewrite (for_each_symbol_unavailable _ _ _ _ _ _ _ _ _ Hq He) in Hrun
        by now left.
      apply IH in Hrun; assumption.
Qed.

(** What [main_entries] returns is the sorted result of the loop. *)
Lemma main_entries_inv (token : string) (tr tr' : trace) (es : list ReportEntry) :
  main_entries float_of_str w token tr = (Ok es, tr') ->
  exists sp500 tr1 entries,
    get_sp500_symbols w tr = (Ok sp500, tr1)
    /\ for_each_symbol float_of_str w token sp500 [] tr1 = (Ok entries, tr')
    /\ es = sort_by_symbol entries.
Proof.
  unfold main_entries, mbind, M_bind, mret, M_ret. intros H.
  destruct (get_sp500_symbols w tr) as [[sp500 | ex] tr1]; [ | discriminate ].
  destruct (for_each_symbol float_of_str w token sp500 [] tr1)
    as [[entries | ex] tr2] eqn:Hloop; [ | discriminate ].
  injection H as <- <-. exists sp500, tr1, entries. auto.
Qed.

(** C5. For every list of constituents, in whatever order the table
    supplies them, the list of entries that [main] passes to [build_html] is
    sorted by symbol in ascending lexicographic order. *)
Theorem main_entries_sorted (token : string) (tr tr' : trace)
    (es : list ReportEntry) :
  main_entries float_of_str w token tr = (Ok es, tr') ->
  StronglySorted symbol_le es.
Proof.
  intros H. apply main_entries_inv in H as (sp500 & tr1 & entries & _ & _ & ->).
  apply sort_by_symbol_sorted.
Qed.

(** The loop appends exactly the constituents that qualify in their turn. *)
Lemma for_each_symbol_selected (token : string) (sp500 : list Constituent) :
  forall (entries : list ReportEntry) (tr : trace),
    for_each_symbol float_of_str w token sp500 entries tr
    = (Ok (entries ++ selected float_of_str w token tr sp500)%list,
       (tr ++ requests_for token sp500)%list).
Proof.
  induction sp500 as [ | item rest IH]; intros entries tr.
  - cbn. now rewrite !app_nil_r.
  - destruct (fetch_quote_total float_of_str w (c_symbol item) token tr)
      as [q Hq].
    destruct (fetch_last_earnings_total float_of_str w (c_symbol item) token
                (tr ++ [quote_request (c_symbol item) token])%list)
      as [e He].
    cbn [selected requests_for flat_map]. fold (requests_for token rest).
    unfold entry_at. rewrite Hq, He. cbn [fst].
    replace (tr ++ [quote_request (c_symbol item) token;
                    earnings_request (c_symbol item) token])%list
      with ((tr ++ [quote_request (c_symbol item) token])
            ++ [earnings_request (c_symbol item) token])%list
      by now rewrite <- app_assoc.
    destruct q as [q | ]; [ destruct e as [e | ] | ].
    + rewrite (for_each_symbol_available _ _ _ _ _ _ _ _ _ Hq He), IH.
      destruct (is_good_earnings e); rewrite <- !app_assoc; reflexivity.
    + rewrite (for_each_symbol_unavailable _ _ _ _ _ _ _ _ _ Hq He), IH
        by now right.
      rewrite <- !app_assoc. reflexivity.
    + rewrite (for_each_symbol_unavailable _ _ _ _ _ _ _ _ _ Hq He), IH
        by now left.
      rewrite <- !app_assoc. reflexivity.
Qed.

(** Every selected entry is flagged and stands for a row that qualified. *)
Lemma selected_qualified (token : string) (sp500 : list Constituent) :
  forall (tr : trace) (e : ReportEntry),
    In e (selected float_of_str w token tr sp500) ->
    good e = true /\ qualified_in_run float_of_str w token tr sp500 e.
Proof.
  induction sp500 as [ | item rest IH]; intros tr e Hin; [ destruct Hin | ].
  cbn [selected] in Hin. apply in_app_or in Hin as [Hin | Hin].
  - unfold entry_at in Hin.
    destruct (fst (fetch_quote float_of_str w (c_symbol item) token tr))
      as [[q | ] | ] eqn:Hq; try destruct Hin.
    destruct (fst (fetch_last_earnings float_of_str w (c_symbol item) token
                     (tr ++ [quote_request (c_symbol item) token])%list))
      as [[r | ] | ] eqn:Hr; try destruct Hin.
    destruct (is_good_earnings r) eqn:Hgood; [ | destruct Hin ].
    destruct Hin as [<- | []]. split; [ reflexivity | ].
    exists [], item, rest, q, r. cbn [requests_for flat_map].
    rewrite app_nil_r. auto.
  - apply IH in Hin as (Hflag & before & it & after & q & r
                        & -> & Hq & Hr & Hgood & ->).
    split; [ reflexivity | ].
    exists (item :: before), it, after, q, r.
    cbn [requests_for flat_map]. fold (requests_for token before).
    rewrite <- app_assoc in Hq. rewrite <- !app_assoc in Hr.
    cbn [app] in Hq, Hr. rewrite <- !app_assoc. cbn [app].
    repeat split; assumption.
Qed.

(** C8. Every entry of the list that [main] builds and passes to
    [build_html] has its [good] flag equal to true, and non-qualifying
    constituents are dropped before rendering: the list is, sorted, exactly
    the list of the rows of the table that had a quote and whose earnings,
    fetched in their turn, passed [is_good_earnings]; so every entry stands
    for a row whose earnings passed the predicate. *)
Theorem main_entries_all_good (token : string) (tr tr' : trace)
    (es : list ReportEntry) :
  main_entries float_of_str w token tr = (Ok es, tr') ->
  exists sp500 tr1,
    get_sp500_symbols w tr = (Ok sp500, tr1)
    /\ es = sort_by_symbol (selected float_of_str w token tr1 sp500)
    /\ Forall (fun e => good e = true
                        /\ qualified_in_run float_of_str w token tr1 sp500 e) es.
Proof.
  intros H.
  apply main_entries_inv in H as (sp500 & tr1 & entries & Hload & Hrun & ->).
  rewrite for_each_symbol_selected in Hrun. injection Hrun as <- _.
  exists sp500, tr1. split; [ exact Hload | ]. split; [ reflexivity | ].
  apply sort_by_symbol_Forall. apply List.Forall_forall.
  intros e Hin. now apply selected_qualified.
Qed.

(** C7. When the credential variable is absent or empty, [main] raises the
    configuration error at once and leaves the trace as it found it: no
    constituent fetch, no market-data fetch, no file written. *)
Theorem main_missing_credential (tr : trace) :
  getenv w "FINNHUB_API_KEY" = None
  \/ getenv w "FINNHUB_API_KEY" = Some EmptyString ->
  main float_of_str w tr
  = (Raise (RuntimeError
       "FINNHUB_API_KEY environment variable not set. Please supply your Finnhub API key."),
     tr)
  /\ filter is_request (snd (main float_of_str w tr)) = filter is_request tr
  /\ filter is_write (snd (main float_of_str w tr)) = filter is_write tr.
Proof.
  intros Henv.
  assert (H : main float_of_str w tr
              = (Raise (RuntimeError
                   "FINNHUB_API_KEY environment variable not set. Please supply your Finnhub API key."),
                 tr)).
  { unfold main. destruct Henv as [-> | ->]; reflexivity. }
  rewrite H. auto.
Qed.

(** Every run of [main] ends in an exception, after requests only: the
    page is never written and the summary is never printed. *)
Lemma main_never_completes (tr : trace) :
  exists ex reqs,
    main float_of_str w tr = (Raise ex, (tr ++ reqs)%list)
    /\ Forall (fun ev => is_request ev = true) reqs.
Proof.
  unfold main.
  destruct (getenv w "FINNHUB_API_KEY") as [[ | c token] | ].
  - eexists _, []. rewrite app_nil_r. split; [ reflexivity | constructor ].
  - unfold main_entries. run_monad.
    destruct (get_sp500_symbols_trace tr) as [[sp500 | ex] ->].
    + destruct (for_each_symbol_runs (String c token) sp500 []
                  (tr ++ [constituents_request])%list)
        as (es & reqs & -> & Hreqs & _).
      rewrite build_html_key_error, <- app_assoc.
      eexists _, _. split; [ reflexivity | ].
      constructor; [ reflexivity | exact Hreqs ].
    + eexists _, _. split; [ reflexivity | ].
      repeat constructor.
  - eexists _, []. rewrite app_nil_r. split; [ reflexivity | constructor ].
Qed.

End Driver.

(** ** The driver on concrete runs *)

(** One qualifying constituent gives one entry, with the quoted price. *)
Example main_entries_one_symbol :
  main_entries no_str one_symbol "key" []
  = (Ok [alpha],
     [constituents_request; quote_request "AAA" "key"; earnings_request "AAA" "key"]).
Proof. vm_compute. reflexivity. Qed.

(** A constituent whose EPS misses the estimate gives no entry. *)
Example main_entries_eps_missed :
  main_entries no_str eps_missed "key" []
  = (Ok [],
     [constituents_request; quote_request "AAA" "key"; earnings_request "AAA" "key"]).
Proof. vm_compute. reflexivity. Qed.

Lemma main_entries_sorted_witness :
  main_entries no_str two_symbols "key" []
  = (Ok [alpha; zeta],
     [constituents_request;
      quote_request "ZZZ" "key"; earnings_request "ZZZ" "key";
      quote_request "AAA" "key"; earnings_request "AAA" "key"])
  /\ StronglySorted symbol_le [alpha; zeta].
Proof.
  assert (H : main_entries no_str two_symbols "key" []
              = (Ok [alpha; zeta],
                 [constituents_request;
                  quote_request "ZZZ" "key"; earnings_request "ZZZ" "key";
                  quote_request "AAA" "key"; earnings_request "AAA" "key"]))
    by (vm_compute; reflexivity).
  split; [ exact H | ].
  exact (main_entries_sorted no_str two_symbols "key" [] _ _ H).
Defined.

(** The rows of the two entries are built in the sorted order. *)
Example rows_two_symbols :
  List.map row [alpha; zeta]
  = [ "          <tr><td>Alpha Corp</td><td>AAA</td><td>101.23</td><td class="
      +:+ dq +:+ "good" +:+ dq +:+ ">良い決算</td></tr>";
      "          <tr><td>Zeta Inc</td><td>ZZZ</td><td>101.23</td><td class="
      +:+ dq +:+ "good" +:+ dq +:+ ">良い決算</td></tr>" ].
Proof. reflexivity. Qed.

(** AAA has a quote but misses its EPS estimate: it is dropped for the
    predicate, and BBB alone is rendered. *)
Lemma main_entries_all_good_witness :
  main_entries no_str mixed_earnings "key" []
  = (Ok [beta],
     [constituents_request;
      quote_request "AAA" "key"; earnings_request "AAA" "key";
      quote_request "BBB" "key"; earnings_request "BBB" "key"])
  /\ fst (fetch_quote no_str mixed_earnings "AAA" "key" [constituents_request])
     = Ok (Some f101_23)
  /\ fst (fetch_last_earnings no_str mixed_earnings "AAA" "key"
            [constituents_request; quote_request "AAA" "key"])
     = Ok (Some misses_eps)
  /\ exists sp500 tr1,
       get_sp500_symbols mixed_earnings [] = (Ok sp500, tr1)
       /\ [beta] = sort_by_symbol (selected no_str mixed_earnings "key" tr1 sp500)
       /\ Forall (fun e => good e = true
                           /\ qualified_in_run no_str mixed_earnings "key" tr1 sp500 e)
                 [beta].
Proof.
  assert (H : main_entries no_str mixed_earnings "key" []
              = (Ok [beta],
                 [constituents_request;
                  quote_request "AAA" "key"; earnings_request "AAA" "key";
                  quote_request "BBB" "key"; earnings_request "BBB" "key"]))
    by (vm_compute; reflexivity).
  split; [ exact H | ].
  split; [ vm_compute; reflexivity | ].
  split; [ vm_compute; reflexivity | ].
  exact (main_entries_all_good no_str mixed_earnings "key" [] _ _ H).
Defined.

Lemma main_missing_credential_witness :
  getenv no_credential "FINNHUB_API_KEY" = None
  /\ main no_str no_credential []
     = (Raise (RuntimeError
          "FINNHUB_API_KEY environment variable not set. Please supply your Finnhub API key."),
        []).
Proof.
  split; [ reflexivity | ].
  apply (main_missing_credential no_str no_credential []).
  left. reflexivity.
Defined.

Example main_empty_credential :
  main no_str empty_credential []
  = (Raise (RuntimeError
       "FINNHUB_API_KEY environment variable not set. Please supply your Finnhub API key."),
     []).
Proof. reflexivity. Qed.

(** C6 (fails on the code). The claim is that a constituent whose quote or
    earnings are unavailable is left out without a fatal error, that the
    remaining symbols are processed, and that the count reported excludes
    it.  In the run where the quote of AAA cannot be fetched and BBB
    qualifies, the loop does leave AAA out and goes on to BBB, so that the
    entries are BBB alone; but [main] then ends in the [KeyError] raised by
    [build_html]: nothing is written and no count is reported. *)
Theorem main_quote_fails_run :
  fetch_quote no_str quote_fails "AAA" "key" [constituents_request]
  = (Ok None, [constituents_request; quote_request "AAA" "key"])
  /\ main_entries no_str quote_fails "key" []
     = (Ok [beta],
        [constituents_request;
         quote_request "AAA" "key"; earnings_request "AAA" "key";
         quote_request "BBB" "key"; earnings_request "BBB" "key"])
  /\ main no_str quote_fails []
     = (Raise (KeyError " font-family"),
        [constituents_request;
         quote_request "AAA" "key"; earnings_request "AAA" "key";
         quote_request "BBB" "key"; earnings_request "BBB" "key"]).
Proof.
  repeat split; vm_compute; reflexivity.
Qed.

(* ===================================================================== *)
(** * Further properties of the script                                     *)
(* ===================================================================== *)

(** ** When a quote and an earnings record are available *)

Section Availability.

Variable float_of_str : string -> option float.
Variable w : world.

Lemma raise_for_status_ok (resp : response) :
  raise_for_status resp = Ok tt
  <-> (status_code resp < 400)%Z \/ (600 <= status_code resp)%Z.
Proof.
  unfold raise_for_status.
  destruct (400 <=? status_code resp)%Z eqn:Hlo;
    destruct (status_code resp <? 600)%Z eqn:Hhi; simpl;
    rewrite ?Z.leb_le, ?Z.leb_gt, ?Z.ltb_lt, ?Z.ltb_ge in *;
    split; intros H; try reflexivity; try discriminate; lia.
Qed.

(** X1. [fetch_quote] never raises: after its one request it returns a
    price or [None].  It returns a price exactly when the request succeeds,
    the status is not a 4xx or 5xx, the body is a JSON object, and the
    object has a field [c] that [float] accepts; the price is that float. *)
Theorem fetch_quote_available (symbol token : string) (tr : trace) (f : float) :
  (exists q, fetch_quote float_of_str w symbol token tr
             = (Ok q, (tr ++ [quote_request symbol token])%list))
  /\
  (fst (fetch_quote float_of_str w symbol token tr) = Ok (Some f)
  <-> exists resp d v,
        http_get w tr (API_BASE +:+ "/quote") [("symbol", symbol); ("token", token)]
        = Ok resp
        /\ ((status_code resp < 400)%Z \/ (600 <= status_code resp)%Z)
        /\ json_body resp = Some (PDict d)
        /\ d !! "c" = Some v
        /\ to_float float_of_str v = Ok f).
Proof.
  split; [ apply fetch_quote_total | ].
  unfold fetch_quote, json, get. run_monad. split.
  - destruct (http_get w tr _ _) as [resp | ex]; [ | discriminate ].
    destruct (raise_for_status resp) as [[] | ex] eqn:Hst; [ | discriminate ].
    apply raise_for_status_ok in Hst.
    destruct (json_body resp) as [[ | | | | | | d] | ] eqn:Hbody;
      try discriminate.
    destruct (d !! "c") as [v | ] eqn:Hc; [ | discriminate ].
    simpl. destruct (to_float float_of_str v) as [f' | ex] eqn:Hf;
      [ | discriminate ].
    simpl. intros [= <-]. exists resp, d, v. repeat split; auto.
  - intros (resp & d & v & -> & Hst & Hbody & Hc & Hf).
    apply raise_for_status_ok in Hst. rewrite Hst, Hbody, Hc. simpl.
    rewrite Hf. reflexivity.
Qed.

Lemma earnings_of_record_ok (rec : pyval) (e : EarningsSurprise) :
  earnings_of_record float_of_str rec = Ok e
  <-> exists d, rec = PDict d /\ fields_of float_of_str d e.
Proof.
  unfold earnings_of_record, fields_of, get. split.
  - destruct rec as [ | | | | | | d]; try discriminate.
    destruct (to_float _ (default _ (d !! "actual"))) eqn:Ha; [ | discriminate ].
    destruct (to_float _ (default _ (d !! "estimate"))) eqn:Hb; [ | discriminate ].
    destruct (to_float _ (default _ (d !! "revenueActual"))) eqn:Hc;
      [ | discriminate ].
    destruct (to_float _ (default _ (d !! "revenueEstimate"))) eqn:Hd;
      [ | discriminate ].
    intros [= <-]. exists d. simpl. auto.
  - intros (d & -> & Ha & Hb & Hc & Hd). rewrite Ha, Hb, Hc, Hd.
    destruct e; reflexivity.
Qed.

(** With a good status and a non-empty array, the result is the first
    record converted, whatever follows it. *)
Lemma fetch_last_earnings_array (symbol token : string) (tr : trace)
    (resp : response) (rec : pyval) (rest : list pyval) :
  http_get w tr (API_BASE +:+ "/stock/earnings") [("symbol", symbol); ("token", token)]
  = Ok resp ->
  raise_for_status resp = Ok tt ->
  json_body resp = Some (PList (rec :: rest)) ->
  fst (fetch_last_earnings float_of_str w symbol token tr)
  = Ok (match earnings_of_record float_of_str rec with
        | Ok e => Some e
        | Raise _ => None
        end).
Proof.
  intros Hget Hst Hbody. unfold fetch_last_earnings, json. run_monad.
  rewrite Hget, Hst, Hbody. simpl.
  destruct (earnings_of_record float_of_str rec); reflexivity.
Qed.

(** A record is returned only from a good answer whose first element is an
    object with four acceptable fields. *)
Lemma fetch_last_earnings_some (symbol token : string) (tr : trace)
    (e : EarningsSurprise) :
  fst (fetch_last_earnings float_of_str w symbol token tr) = Ok (Some e) ->
  exists resp d rest,
    http_get w tr (API_BASE +:+ "/stock/earnings")
             [("symbol", symbol); ("token", token)] = Ok resp
    /\ ((status_code resp < 400)%Z \/ (600 <= status_code resp)%Z)
    /\ json_body resp = Some (PList (PDict d :: rest))
    /\ fields_of float_of_str d e.
Proof.
  destruct (http_get w tr (API_BASE +:+ "/stock/earnings")
              [("symbol", symbol); ("token", token)]) as [resp | ex] eqn:Hget.
  2:{ unfold fetch_last_earnings. run_monad. rewrite Hget. discriminate. }
  destruct (raise_for_status resp) as [[] | ex] eqn:Hst.
  2:{ unfold fetch_last_earnings. run_monad. rewrite Hget, Hst. discriminate. }
  destruct (json_body resp) as [body | ] eqn:Hbody.
  2:{ unfold fetch_last_earnings, json. run_monad.
      rewrite Hget, Hst, Hbody. discriminate. }
  destruct body as [ | b | n | x | s | [ | rec rest] | d0].
  7:{ rewrite (fetch_last_earnings_array _ _ _ _ _ _ Hget Hst Hbody).
      destruct (earnings_of_record float_of_str rec) as [e' | ex] eqn:Hrec;
        [ | discriminate ].
      intros [= <-]. apply earnings_of_record_ok in Hrec as (d & -> & Hd).
      exists resp, d, rest. apply raise_for_status_ok in Hst. auto. }
  all: unfold fetch_last_earnings, json; run_monad;
    rewrite Hget, Hst, Hbody; simpl; repeat break_match; discriminate.
Qed.

(** X2. [fetch_last_earnings] never raises: after its one request it
    returns a record or [None].  It returns a record exactly when the request
    succeeds, the status is not a 4xx or 5xx, the body is a non-empty JSON
    array whose first element is an object, and each of the four fields of
    that object, read as 0 when absent, is accepted by [float]; the record
    holds these four floats. *)
Theorem fetch_last_earnings_available (symbol token : string) (tr : trace)
    (e : EarningsSurprise) :
  (exists r, fetch_last_earnings float_of_str w symbol token tr
             = (Ok r, (tr ++ [earnings_request symbol token])%list))
  /\
  (fst (fetch_last_earnings float_of_str w symbol token tr) = Ok (Some e)
  <-> exists resp d rest,
        http_get w tr (API_BASE +:+ "/stock/earnings")
                 [("symbol", symbol); ("token", token)] = Ok resp
        /\ ((status_code resp < 400)%Z \/ (600 <= status_code resp)%Z)
        /\ json_body resp = Some (PList (PDict d :: rest))
        /\ fields_of float_of_str d e).
Proof.
  split; [ apply fetch_last_earnings_total | ].
  split.
  - apply fetch_last_earnings_some.
  - intros (resp & d & rest & Hget & Hst & Hbody & Hd).
    apply raise_for_status_ok in Hst.
    rewrite (fetch_last_earnings_array _ _ _ _ _ _ Hget Hst Hbody).
    assert (Hrec : earnings_of_record float_of_str (PDict d) = Ok e)
      by (apply earnings_of_record_ok; eauto).
    rewrite Hrec. reflexivity.
Qed.

(** X3. A field that is present with the value [null] makes the whole
    record unavailable, whatever the other fields hold. *)
Theorem fetch_last_earnings_null_field (symbol token : string) (tr : trace)
    (resp : response) (d : gmap string pyval) (rest : list pyval) (key : string) :
  http_get w tr (API_BASE +:+ "/stock/earnings") [("symbol", symbol); ("token", token)]
  = Ok resp ->
  json_body resp = Some (PList (PDict d :: rest)) ->
  In key ["actual"; "estimate"; "revenueActual"; "revenueEstimate"] ->
  d !! key = Some PNone ->
  fst (fetch_last_earnings float_of_str w symbol token tr) = Ok None.
Proof.
  intros Hget Hbody Hkey Hnull.
  destruct (fetch_last_earnings_total float_of_str w symbol token tr)
    as [[e | ] Hrun]; rewrite Hrun; [ exfalso | reflexivity ].
  assert (Hsome : fst (fetch_last_earnings float_of_str w symbol token tr)
                  = Ok (Some e)) by now rewrite Hrun.
  apply fetch_last_earnings_some in Hsome
    as (resp' & d' & rest' & Hget' & _ & Hbody' & Ha & Hb & Hc & Hd).
  rewrite Hget in Hget'. injection Hget' as <-.
  rewrite Hbody in Hbody'. injection Hbody' as <- _.
  simpl in Hkey.
  destruct Hkey as [<- | [<- | [<- | [<- | []]]]]; rewrite Hnull in *;
    discriminate.
Qed.

(** X4. When the first record carries neither revenue field, or neither EPS
    field, both figures of the pair are read as 0.0 and the record returned
    does not qualify, whatever the other pair holds. *)
Theorem fetch_last_earnings_absent_pair (symbol token : string) (tr : trace)
    (resp : response) (d : gmap string pyval) (rest : list pyval)
    (e : EarningsSurprise) :
  http_get w tr (API_BASE +:+ "/stock/earnings") [("symbol", symbol); ("token", token)]
  = Ok resp ->
  json_body resp = Some (PList (PDict d :: rest)) ->
  (d !! "revenueActual" = None /\ d !! "revenueEstimate" = None)
  \/ (d !! "actual" = None /\ d !! "estimate" = None) ->
  fst (fetch_last_earnings float_of_str w symbol token tr) = Ok (Some e) ->
  is_good_earnings e = false.
Proof.
  intros Hget Hbody Habsent Hsome.
  apply fetch_last_earnings_some in Hsome
    as (resp' & d' & rest' & Hget' & _ & Hbody' & Ha & Hb & Hc & Hd).
  rewrite Hget in Hget'. injection Hget' as <-.
  rewrite Hbody in Hbody'. injection Hbody' as <- _.
  unfold is_good_earnings.
  destruct Habsent as [[H1 H2] | [H1 H2]]; rewrite H1, H2 in *;
    simpl in *.
  - injection Hc as <-. injection Hd as <-. apply andb_false_r.
  - injection Ha as <-. injection Hb as <-. reflexivity.
Qed.

End Availability.

(** X5. Only the first record of the earnings array is read: two answers
    with a good status whose arrays begin with the same record give the same
    result, whatever records follow. *)
Theorem fetch_last_earnings_first_record_only
    (float_of_str : string -> option float) (w1 w2 : world)
    (symbol token : string) (tr1 tr2 : trace) (resp1 resp2 : response)
    (rec : pyval) (rest1 rest2 : list pyval) :
  http_get w1 tr1 (API_BASE +:+ "/stock/earnings") [("symbol", symbol); ("token", token)]
  = Ok resp1 ->
  http_get w2 tr2 (API_BASE +:+ "/stock/earnings") [("symbol", symbol); ("token", token)]
  = Ok resp2 ->
  raise_for_status resp1 = Ok tt ->
  raise_for_status resp2 = Ok tt ->
  json_body resp1 = Some (PList (rec :: rest1)) ->
  json_body resp2 = Some (PList (rec :: rest2)) ->
  fst (fetch_last_earnings float_of_str w1 symbol token tr1)
  = fst (fetch_last_earnings float_of_str w2 symbol token tr2).
Proof.
  intros Hget1 Hget2 Hst1 Hst2 Hbody1 Hbody2.
  rewrite (fetch_last_earnings_array _ _ _ _ _ _ _ _ Hget1 Hst1 Hbody1).
  rewrite (fetch_last_earnings_array _ _ _ _ _ _ _ _ Hget2 Hst2 Hbody2).
  reflexivity.
Qed.

(** ** The constituent loader *)

Lemma column_missing (label : string) (df : DataFrame) :
  (forall cells, ~ In (label, cells) df) ->
  column label df = Raise (KeyError label).
Proof.
  unfold column. induction df as [ | [l cells] df IH]; intros Hnone; simpl.
  - reflexivity.
  - destruct (String.eqb l label) eqn:Heq.
    + apply String.eqb_eq in Heq. subst. exfalso.
      apply (Hnone cells). now left.
    + apply IH. intros cells' Hin. apply (Hnone cells'). now right.
Qed.

Lemma column_raises (label : string) (df : DataFrame) (ex : exn) :
  column label df = Raise ex -> ex = KeyError label.
Proof.
  unfold column. destruct (List.find _ df); congruence.
Qed.

Lemma column_present (label : string) (df : DataFrame) (cells : list string) :
  In (label, cells) df -> exists cells', column label df = Ok cells'.
Proof.
  unfold column. induction df as [ | [l c] df IH]; intros Hin; simpl.
  - destruct Hin.
  - destruct (String.eqb l label) eqn:Heq; [ eauto | ].
    destruct Hin as [[= -> ->] | Hin]; [ | auto ].
    rewrite String.eqb_refl in Heq. discriminate.
Qed.

Lemma map_fst_combine_eq {A B} (l : list A) (l' : list B) :
  length l = length l' -> List.map fst (combine l l') = l.
Proof.
  revert l'. induction l as [ | x l IH]; intros [ | y l'] Hlen; simpl in *;
    try discriminate; [ reflexivity | ].
  f_equal. apply IH. lia.
Qed.

Lemma map_snd_combine_eq {A B} (l : list A) (l' : list B) :
  length l = length l' -> List.map snd (combine l l') = l'.
Proof.
  revert l'. induction l as [ | x l IH]; intros [ | y l'] Hlen; simpl in *;
    try discriminate; [ reflexivity | ].
  f_equal. apply IH. lia.
Qed.

Section Loader.

Variable w : world.

(** X6. The constituents are the rows of the first table of the page, in
    the order of the table: their symbols are the cells of its [Symbol]
    column and their names the cells of its [Security] column.  The other
    columns and the other tables of the page are not read. *)
Theorem get_sp500_symbols_rows (tr : trace) (df : DataFrame)
    (others : list DataFrame) (syms names : list string) :
  read_html w tr "https://en.wikipedia.org/wiki/List_of_S%26P_500_companies"
  = Ok (df :: others) ->
  column "Symbol" df = Ok syms ->
  column "Security" df = Ok names ->
  length syms = length names ->
  exists cs,
    get_sp500_symbols w tr = (Ok cs, (tr ++ [constituents_request])%list)
    /\ List.map c_symbol cs = syms
    /\ List.map c_name cs = names.
Proof.
  intros Hread Hsym Hname Hlen.
  unfold get_sp500_symbols, pd_read_html, to_records. run_monad.
  rewrite Hread, Hsym, Hname. eexists. split; [ reflexivity | ].
  rewrite !List.map_map. simpl.
  split; [ now apply map_fst_combine_eq | now apply map_snd_combine_eq ].
Qed.

(** X7. The loader has no fallback: after its one request for the page, an
    error raised while reading the page is raised unchanged, and a first
    table without a [Symbol] or without a [Security] column makes it raise
    a [KeyError]; in neither case is a list of constituents returned. *)
Theorem get_sp500_symbols_failures (tr : trace) :
  let page :=
    read_html w tr "https://en.wikipedia.org/wiki/List_of_S%26P_500_companies" in
  let tr' := (tr ++ [constituents_request])%list in
  (forall ex, page = Raise ex -> get_sp500_symbols w tr = (Raise ex, tr'))
  /\ (forall df others label,
        page = Ok (df :: others) ->
        label = "Symbol" \/ label = "Security" ->
        (forall cells, ~ In (label, cells) df) ->
        exists message, get_sp500_symbols w tr = (Raise (KeyError message), tr')).
Proof.
  cbv zeta. unfold get_sp500_symbols, pd_read_html, to_records. run_monad.
  split.
  - intros ex ->. reflexivity.
  - intros df others label -> Hlabel Hnone.
    destruct Hlabel as [-> | ->].
    + rewrite (column_missing "Symbol" df Hnone).
      destruct (column "Security" df); simpl; eauto.
    + rewrite (column_missing "Security" df Hnone).
      destruct (column "Symbol" df) as [syms | ex] eqn:Hsym; simpl; [ eauto | ].
      apply column_raises in Hsym as ->. eauto.
Qed.

End Loader.

(** ** The evaluator on special values *)

Lemma SFcompare_antisym (a b : float) :
  SFcompare b a = option_map CompOpp (SFcompare a b).
Proof.
  destruct a as [sa | sa | | sa ma ea], b as [sb | sb | | sb mb eb]; simpl;
    try destruct sa; try destruct sb; try reflexivity.
  - rewrite (Z.compare_antisym eb ea).
    destruct (eb ?= ea)%Z; simpl; try reflexivity.
    do 2 f_equal. symmetry. exact (Pos.compare_cont_antisym ma mb Eq).
  - rewrite (Z.compare_antisym eb ea).
    destruct (eb ?= ea)%Z; simpl; try reflexivity.
    f_equal. symmetry. exact (Pos.compare_cont_antisym ma mb Eq).
Qed.

Lemma float_gt_asym (a b : float) : float_gt a b = true -> float_gt b a = false.
Proof.
  unfold float_gt. rewrite (SFcompare_antisym a b).
  destruct (SFcompare a b) as [[ | | ] | ]; simpl; congruence.
Qed.

Lemma float_gt_nan (a b : float) :
  a = S754_nan \/ b = S754_nan -> float_gt a b = false.
Proof.
  unfold float_gt. intros [-> | ->]; [ reflexivity | ].
  destruct a; reflexivity.
Qed.

(** X8. A record in which any of the four figures is a NaN does not
    qualify. *)
Theorem is_good_earnings_any_nan (r : EarningsSurprise) :
  In S754_nan [actual_eps r; estimate_eps r; actual_revenue r; estimate_revenue r] ->
  is_good_earnings r = false.
Proof.
  unfold is_good_earnings. simpl.
  intros [H | [H | [H | [H | []]]]].
  - rewrite (float_gt_nan (actual_eps r) (estimate_eps r)); auto.
  - rewrite (float_gt_nan (actual_eps r) (estimate_eps r)); auto.
  - rewrite (float_gt_nan (actual_revenue r) (estimate_revenue r)); auto.
    apply andb_false_r.
  - rewrite (float_gt_nan (actual_revenue r) (estimate_revenue r)); auto.
    apply andb_false_r.
Qed.

(** X9. A record and its mirror image, with actual and estimated figures
    exchanged, never both qualify. *)
Theorem is_good_earnings_mirror (r : EarningsSurprise) :
  is_good_earnings r = true -> is_good_earnings (mirror r) = false.
Proof.
  unfold is_good_earnings, mirror. simpl.
  intros H. apply andb_prop in H as [H _].
  now rewrite (float_gt_asym _ _ H).
Qed.

(** ** The sort, once more *)

Lemma string_ltb_irrefl_eqb (s1 s2 : string) :
  String.ltb s1 s2 = true -> String.eqb s1 s2 = false.
Proof.
  unfold String.ltb. intros H. apply String.eqb_neq. intros ->.
  rewrite string_compare_refl in H. discriminate.
Qed.

Lemma insert_by_symbol_filter (s : string) (e : ReportEntry)
    (l : list ReportEntry) :
  List.filter (fun x => String.eqb (symbol x) s) (insert_by_symbol e l)
  = List.filter (fun x => String.eqb (symbol x) s) (e :: l).
Proof.
  induction l as [ | y l IH]; [ reflexivity | ].
  cbn [insert_by_symbol].
  destruct (String.ltb (symbol y) (symbol e)) eqn:Hlt; [ | reflexivity ].
  cbn [List.filter] in *. rewrite IH.
  destruct (String.eqb (symbol e) s) eqn:He; [ | reflexivity ].
  apply String.eqb_eq in He. subst s.
  now rewrite (string_ltb_irrefl_eqb _ _ Hlt).
Qed.

(** X10. The sort neither loses nor repeats an entry, and it is stable:
    the entries of any one symbol come out in the order they went in. *)
Theorem sort_by_symbol_stable_permutation (l : list ReportEntry) :
  Permutation l (sort_by_symbol l)
  /\ forall s,
       List.filter (fun x => String.eqb (symbol x) s) (sort_by_symbol l)
       = List.filter (fun x => String.eqb (symbol x) s) l.
Proof.
  split.
  - induction l as [ | e l IH]; simpl.
    + constructor.
    + rewrite <- insert_by_symbol_perm. now constructor.
  - intros s. induction l as [ | e l IH]; [ reflexivity | ].
    cbn [sort_by_symbol fold_right]. rewrite insert_by_symbol_filter.
    cbn [List.filter]. fold (sort_by_symbol l). now rewrite IH.
Qed.

(** ** The loop and [main] *)

Section Loop.

Variable float_of_str : string -> option float.
Variable w : world.

(** One step of the loop, whatever the two answers are. *)
Lemma for_each_symbol_step (token : string) (item : Constituent)
    (rest : list Constituent) (entries : list ReportEntry) (tr : trace) :
  exists new,
    for_each_symbol float_of_str w token (item :: rest) entries tr
    = for_each_symbol float_of_str w token rest (entries ++ new)
        (tr ++ [quote_request (c_symbol item) token;
                earnings_request (c_symbol item) token])%list
    /\ (new = [] \/ exists q, new = [{| name := c_name item; symbol := c_symbol item;
                                       price := q; good := true |}]).
Proof.
  destruct (fetch_quote_total float_of_str w (c_symbol item) token tr) as [q Hq].
  destruct (fetch_last_earnings_total float_of_str w (c_symbol item) token
              (tr ++ [quote_request (c_symbol item) token])%list) as [e He].
  replace (tr ++ [quote_request (c_symbol item) token;
                  earnings_request (c_symbol item) token])%list
    with ((tr ++ [quote_request (c_symbol item) token])
          ++ [earnings_request (c_symbol item) token])%list
    by now rewrite <- app_assoc.
  destruct q as [q | ]; [ destruct e as [e | ] | ].
  - rewrite (for_each_symbol_available _ _ _ _ _ _ _ _ _ _ _ Hq He).
    destruct (is_good_earnings e).
    + eexists. split; [ reflexivity | eauto ].
    + exists []. rewrite app_nil_r. auto.
  - rewrite (for_each_symbol_unavailable _ _ _ _ _ _ _ _ _ _ _ Hq He)
      by now right.
    exists []. rewrite app_nil_r. auto.
  - rewrite (for_each_symbol_unavailable _ _ _ _ _ _ _ _ _ _ _ Hq He)
      by now left.
    exists []. rewrite app_nil_r. auto.
Qed.

(** The loop returns a list after the requests of its constituents. *)
Lemma for_each_symbol_trace (token : string) (sp500 : list Constituent) :
  forall (entries : list ReportEntry) (tr : trace),
  exists es,
    for_each_symbol float_of_str w token sp500 entries tr
    = (Ok es, (tr ++ requests_for token sp500)%list).
Proof.
  induction sp500 as [ | item rest IH]; intros entries tr.
  - exists entries. cbn. now rewrite app_nil_r.
  - destruct (for_each_symbol_step token item rest entries tr)
      as (new & -> & _).
    destruct (IH (entries ++ new)%list
                (tr ++ [quote_request (c_symbol item) token;
                        earnings_request (c_symbol item) token])%list)
      as [es ->].
    exists es. cbn [requests_for flat_map]. fold (requests_for token rest).
    now rewrite <- app_assoc.
Qed.

(** X11. The loop never raises, and the requests it makes do not depend on
    the answers: for each constituent, in the order of the table, one quote
    request and then one earnings request, the second also when the first
    failed; two requests per constituent in all, each carrying the token. *)
Theorem for_each_symbol_requests (token : string) (sp500 : list Constituent)
    (entries : list ReportEntry) (tr : trace) :
  (exists es,
      for_each_symbol float_of_str w token sp500 entries tr
      = (Ok es, (tr ++ requests_for token sp500)%list))
  /\ length (requests_for token sp500) = (2 * length sp500)%nat
  /\ Forall (fun ev => exists url symbol,
                 ev = EvHttpGet url [("symbol", symbol); ("token", token)])
            (requests_for token sp500).
Proof.
  split; [ apply for_each_symbol_trace | ].
  induction sp500 as [ | item rest [IHlen IHall]]; simpl.
  - split; [ reflexivity | constructor ].
  - fold (requests_for token rest). split; [ rewrite IHlen; lia | ].
    repeat constructor; eauto.
Qed.

(** X12. The loop only appends: the entries it returns are the entries it
    started from followed by new ones, and the new ones, by symbol and name,
    form a subsequence of the constituents, in the order of the table; so
    there is at most one new entry per row of the table. *)
Theorem for_each_symbol_sublist (token : string) (sp500 : list Constituent) :
  forall (entries es : list ReportEntry) (tr tr' : trace),
    for_each_symbol float_of_str w token sp500 entries tr = (Ok es, tr') ->
    exists new,
      es = (entries ++ new)%list
      /\ sublist (List.map entry_key new) (List.map constituent_key sp500)
      /\ (length new <= length sp500)%nat.
Proof.
  induction sp500 as [ | item rest IH]; intros entries es tr tr' Hrun.
  - cbn in Hrun. injection Hrun as <- _. exists []. rewrite app_nil_r.
    repeat split; constructor.
  - destruct (for_each_symbol_step token item rest entries tr)
      as (new & Hstep & Hnew).
    rewrite Hstep in Hrun. apply IH in Hrun as (more & -> & Hsub & Hlen).
    exists (new ++ more)%list. rewrite <- app_assoc.
    split; [ reflexivity | ].
    destruct Hnew as [-> | [q ->]]; simpl.
    + split; [ now apply sublist_cons | lia ].
    + split; [ now apply sublist_skip | lia ].
Qed.

(** Against a stateless network a fetch gives what it gives at the start. *)
Lemma fetch_quote_stateless (symbol token : string) (tr : trace) :
  stateless w ->
  fetch_quote float_of_str w symbol token tr
  = (fst (fetch_quote float_of_str w symbol token []),
     (tr ++ [quote_request symbol token])%list).
Proof.
  intros Hw. unfold fetch_quote. run_monad.
  rewrite (Hw tr []). repeat break_match; reflexivity.
Qed.

Lemma fetch_last_earnings_stateless (symbol token : string) (tr : trace) :
  stateless w ->
  fetch_last_earnings float_of_str w symbol token tr
  = (fst (fetch_last_earnings float_of_str w symbol token []),
     (tr ++ [earnings_request symbol token])%list).
Proof.
  intros Hw. unfold fetch_last_earnings. run_monad.
  rewrite (Hw tr []). repeat break_match; reflexivity.
Qed.

Lemma for_each_symbol_stateless (token : string) (sp500 : list Constituent) :
  stateless w ->
  forall (entries : list ReportEntry) (tr : trace),
    for_each_symbol float_of_str w token sp500 entries tr
    = (Ok (entries ++ omap (entry_for float_of_str w token) sp500)%list,
       (tr ++ requests_for token sp500)%list).
Proof.
  intros Hw. induction sp500 as [ | item rest IH]; intros entries tr.
  - cbn. now rewrite !app_nil_r.
  - pose proof (fetch_quote_stateless (c_symbol item) token tr Hw) as Hq.
    pose proof (fetch_last_earnings_stateless (c_symbol item) token
                  (tr ++ [quote_request (c_symbol item) token])%list Hw) as He.
    destruct (fetch_quote_total float_of_str w (c_symbol item) token [])
      as [q Hq0].
    destruct (fetch_last_earnings_total float_of_str w (c_symbol item) token [])
      as [e He0].
    cbn [omap list_omap requests_for flat_map]. fold (requests_for token rest).
    unfold entry_for at 1. rewrite Hq0, He0 in *. simpl fst in *.
    destruct q as [q | ]; [ destruct e as [e | ] | ].
    + rewrite (for_each_symbol_available _ _ _ _ _ _ _ _ _ _ _ Hq He), IH.
      destruct (is_good_earnings e); rewrite <- !app_assoc; reflexivity.
    + rewrite (for_each_symbol_unavailable _ _ _ _ _ _ _ _ _ _ _ Hq He), IH
        by now right.
      rewrite <- !app_assoc. reflexivity.
    + rewrite (for_each_symbol_unavailable _ _ _ _ _ _ _ _ _ _ _ Hq He), IH
        by now left.
      rewrite <- !app_assoc. reflexivity.
Qed.

(** X13. Against a network that answers a request the same way whenever it
    is asked, the entries [main] renders are exactly the constituents that,
    looked up on their own, have a quote and qualifying earnings; they are
    sorted by symbol, and a constituent listed twice in the table is looked
    up and entered twice. *)
Theorem main_entries_stateless (token : string) (tr tr1 : trace)
    (sp500 : list Constituent) :
  stateless w ->
  get_sp500_symbols w tr = (Ok sp500, tr1) ->
  main_entries float_of_str w token tr
  = (Ok (sort_by_symbol (omap (entry_for float_of_str w token) sp500)),
     (tr1 ++ requests_for token sp500)%list).
Proof.
  intros Hw Hload. unfold main_entries. run_monad.
  rewrite Hload, (for_each_symbol_stateless token sp500 Hw). reflexivity.
Qed.

(** X14. A failure of the constituent loader is fatal: [main] ends with the
    loader's exception after the one request for the page, without any
    request to the market data source, and writes and prints nothing. *)
Theorem main_loader_fails (tr : trace) (token : string) (ex : exn) :
  getenv w "FINNHUB_API_KEY" = Some token ->
  token <> EmptyString ->
  read_html w tr "https://en.wikipedia.org/wiki/List_of_S%26P_500_companies"
  = Raise ex ->
  main float_of_str w tr = (Raise ex, (tr ++ [constituents_request])%list).
Proof.
  intros Henv Htoken Hread. unfold main. rewrite Henv.
  destruct token as [ | c token]; [ congruence | ].
  unfold main_entries, get_sp500_symbols, pd_read_html. run_monad.
  rewrite Hread. reflexivity.
Qed.

(** X15. With a credential and a constituent list, every run of [main] makes
    the request for the page and the two requests of each constituent, and
    then ends with the [KeyError] of [build_html]: the file is not written
    and the summary is not printed, whatever the answers were. *)
Theorem main_with_constituents (tr tr1 : trace) (token : string)
    (sp500 : list Constituent) :
  getenv w "FINNHUB_API_KEY" = Some token ->
  token <> EmptyString ->
  get_sp500_symbols w tr = (Ok sp500, tr1) ->
  main float_of_str w tr
  = (Raise (KeyError " font-family"),
     (tr ++ constituents_request :: requests_for token sp500)%list).
Proof.
  intros Henv Htoken Hload. unfold main. rewrite Henv.
  destruct token as [ | c token]; [ congruence | ].
  destruct (get_sp500_symbols_trace w tr) as [r Htrace].
  rewrite Htrace in Hload. injection Hload as -> <-.
  unfold main_entries. run_monad. rewrite Htrace.
  destruct (for_each_symbol_trace (String c token) sp500 []
              (tr ++ [constituents_request])%list) as [es ->].
  rewrite build_html_key_error, <- app_assoc. reflexivity.
Qed.

End Loop.

(** ** The further properties on concrete runs *)

Lemma fetch_quote_available_witness :
  fst (fetch_quote no_str one_symbol "AAA" "key" []) = Ok (Some f101_23).
Proof.
  apply (proj2 (proj2 (fetch_quote_available no_str one_symbol "AAA" "key" []
                         f101_23))).
  exists {| status_code := 200; json_body := Some (quote_body f101_23) |},
         (<["c" := PFloat f101_23]> (<["pc" := PFloat f101_23]> ∅)),
         (PFloat f101_23).
  repeat split; try reflexivity. left. reflexivity.
Defined.

Lemma fetch_last_earnings_available_witness :
  fst (fetch_last_earnings no_str one_symbol "AAA" "key" []) = Ok (Some beats).
Proof.
  apply (proj2 (proj2 (fetch_last_earnings_available no_str one_symbol "AAA"
                         "key" [] beats))).
  exists {| status_code := 200;
            json_body := Some (PList [PDict (earnings_record beats)]) |},
         (earnings_record beats), [].
  repeat split; try reflexivity. left. reflexivity.
Defined.

Lemma fetch_last_earnings_null_field_witness :
  record_with_null !! "estimate" = Some PNone
  /\ fst (fetch_last_earnings no_str null_estimate "AAA" "key" []) = Ok None.
Proof.
  split; [ reflexivity | ].
  apply (fetch_last_earnings_null_field no_str null_estimate "AAA" "key" []
           {| status_code := 200;
              json_body := Some (PList [PDict record_with_null]) |}
           record_with_null [] "estimate").
  - reflexivity.
  - reflexivity.
  - simpl. auto.
  - reflexivity.
Defined.

Lemma fetch_last_earnings_absent_pair_witness :
  fst (fetch_last_earnings no_str eps_only "AAA" "key" [])
  = Ok (Some {| actual_eps := f2_10; estimate_eps := f2_00;
                actual_revenue := f0; estimate_revenue := f0 |})
  /\ is_good_earnings {| actual_eps := f2_10; estimate_eps := f2_00;
                         actual_revenue := f0; estimate_revenue := f0 |} = false.
Proof.
  assert (H : fst (fetch_last_earnings no_str eps_only "AAA" "key" [])
              = Ok (Some {| actual_eps := f2_10; estimate_eps := f2_00;
                            actual_revenue := f0; estimate_revenue := f0 |}))
    by (vm_compute; reflexivity).
  split; [ exact H | ].
  apply (fetch_last_earnings_absent_pair no_str eps_only "AAA" "key" []
           {| status_code := 200;
              json_body := Some (PList [PDict record_eps_only]) |}
           record_eps_only []).
  - reflexivity.
  - reflexivity.
  - left. split; reflexivity.
  - exact H.
Defined.

Lemma fetch_last_earnings_first_record_only_witness :
  fst (fetch_last_earnings no_str one_symbol "AAA" "key" [])
  = fst (fetch_last_earnings no_str two_quarters "AAA" "key" [constituents_request]).
Proof.
  apply (fetch_last_earnings_first_record_only no_str one_symbol two_quarters
           "AAA" "key" [] [constituents_request]
           {| status_code := 200;
              json_body := Some (PList [PDict (earnings_record beats)]) |}
           {| status_code := 200;
              json_body := Some (PList [PDict (earnings_record beats);
                                        PDict (earnings_record misses_eps)]) |}
           (PDict (earnings_record beats)) [] [PDict (earnings_record misses_eps)]);
    reflexivity.
Defined.

Lemma get_sp500_symbols_rows_witness :
  exists cs,
    get_sp500_symbols two_tables [] = (Ok cs, [constituents_request])
    /\ List.map c_symbol cs = ["ZZZ"; "AAA"]
    /\ List.map c_name cs = ["Zeta Inc"; "Alpha Corp"].
Proof.
  apply (get_sp500_symbols_rows two_tables []
           [ ("Symbol", ["ZZZ"; "AAA"]); ("GICS Sector", ["Tech"; "Energy"]);
             ("Security", ["Zeta Inc"; "Alpha Corp"]) ]
           [ [ ("Symbol", ["OLD"]); ("Security", ["Removed Corp"]) ] ]);
    reflexivity.
Defined.

Lemma get_sp500_symbols_failures_witness :
  get_sp500_symbols page_down []
  = (Raise (OtherError "URLError"), [constituents_request])
  /\ exists message,
       get_sp500_symbols no_security_column []
       = (Raise (KeyError message), [constituents_request]).
Proof.
  split.
  - apply (proj1 (get_sp500_symbols_failures page_down [])). reflexivity.
  - apply (proj2 (get_sp500_symbols_failures no_security_column [])
             [ ("Symbol", ["AAA"]); ("Name", ["Alpha Corp"]) ] [] "Security").
    + reflexivity.
    + now right.
    + intros cells [H | [H | []]]; discriminate.
Defined.

Lemma is_good_earnings_any_nan_witness : is_good_earnings nan_estimate = false.
Proof.
  apply (is_good_earnings_any_nan nan_estimate). simpl. auto.
Defined.

Lemma is_good_earnings_mirror_witness :
  is_good_earnings beats = true /\ is_good_earnings (mirror beats) = false.
Proof.
  split; [ reflexivity | ].
  apply (is_good_earnings_mirror beats). reflexivity.
Defined.

Lemma for_each_symbol_sublist_witness :
  for_each_symbol no_str quote_fails "key" [aaa; bbb] [zeta] []
  = (Ok [zeta; beta], requests_for "key" [aaa; bbb])
  /\ exists new,
       [zeta; beta] = ([zeta] ++ new)%list
       /\ sublist (List.map entry_key new) (List.map constituent_key [aaa; bbb])
       /\ (length new <= 2)%nat.
Proof.
  assert (H : for_each_symbol no_str quote_fails "key" [aaa; bbb] [zeta] []
              = (Ok [zeta; beta], requests_for "key" [aaa; bbb]))
    by (vm_compute; reflexivity).
  split; [ exact H | ].
  exact (for_each_symbol_sublist no_str quote_fails "key" [aaa; bbb]
           [zeta] [zeta; beta] [] _ H).
Defined.

Lemma serve_stateless (token : option string) (rows : list (string * string))
    (quote earnings : string -> result response) (t : datetime) :
  stateless (serve token rows quote earnings t).
Proof. intros tr tr' url params. reflexivity. Defined.

Lemma main_entries_stateless_witness :
  main_entries no_str two_symbols "key" []
  = (Ok (sort_by_symbol (omap (entry_for no_str two_symbols "key") [zzz; aaa])),
     ([constituents_request] ++ requests_for "key" [zzz; aaa])%list)
  /\ sort_by_symbol (omap (entry_for no_str two_symbols "key") [zzz; aaa])
     = [alpha; zeta].
Proof.
  split; [ | vm_compute; reflexivity ].
  apply (main_entries_stateless no_str two_symbols "key" [] [constituents_request]
           [zzz; aaa]).
  - apply serve_stateless.
  - reflexivity.
Defined.

Lemma main_loader_fails_witness :
  main no_str page_down []
  = (Raise (OtherError "URLError"), [constituents_request]).
Proof.
  apply (main_loader_fails no_str page_down [] "key" (OtherError "URLError")).
  - reflexivity.
  - discriminate.
  - reflexivity.
Defined.

Lemma main_with_constituents_witness :
  main no_str two_tables []
  = (Raise (KeyError " font-family"),
     [constituents_request;
      quote_request "ZZZ" "key"; earnings_request "ZZZ" "key";
      quote_request "AAA" "key"; earnings_request "AAA" "key"]).
Proof.
  apply (main_with_constituents no_str two_tables [] [constituents_request]
           "key" [zzz; aaa]).
  - reflexivity.
  - discriminate.
  - reflexivity.
Defined.
